(** * Wishlist front-end: a shallow embedding of the client logic

    The development follows the layout of the repository:
    [utils/helpers.js], [services/socket.js], [services/api.js],
    [pages/WishlistDetail.jsx], [components/ProductCard.jsx],
    [components/JoinWishlistModal.jsx], [components/AddProductModal.jsx]
    and [components/ImageUpload.jsx].

    JavaScript strings are [string]; a property that may be [undefined]
    is an [option]; React state is a record threaded through the
    handlers; calls made on collaborators (REST client, socket, parent
    callbacks) are recorded in a trace, and the outcome of an awaited
    request is an argument of the handler. *)

From Stdlib Require Import ZArith Ascii String List Bool Lia.
From stdpp Require Import base option list strings pretty gmap.
Import ListNotations.

Local Open Scope string_scope.

(** ** JavaScript built-ins on the values that occur *)

Module Js.

(** [!s] on a string: only the empty string is falsy. *)
Definition str_truthy (s : string) : bool :=
  match s with
  | EmptyString => false
  | String _ _ => true
  end.

(** [a || b] where [a] is a string or [undefined] and [b] a literal. *)
Definition or_else (a : option string) (b : string) : string :=
  match a with
  | Some s => if str_truthy s then s else b
  | None => b
  end.

(** White space of [String.prototype.trim] among the code units below
    256: TAB, LF, VT, FF, CR, SPACE and NBSP. *)
Definition is_space (c : ascii) : bool :=
  match nat_of_ascii c with
  | 9 | 10 | 11 | 12 | 13 | 32 | 160 => true
  | _ => false
  end.

Fixpoint trim_start (s : string) : string :=
  match s with
  | String c s' => if is_space c then trim_start s' else s
  | EmptyString => EmptyString
  end.

Fixpoint trim_end (s : string) : string :=
  match s with
  | String c s' =>
      match trim_end s' with
      | EmptyString => if is_space c then EmptyString else String c EmptyString
      | t => String c t
      end
  | EmptyString => EmptyString
  end.

(** [s.trim()] *)
Definition trim (s : string) : string := trim_end (trim_start s).

End Js.

(** ** String methods used by the helpers and the forms *)

Module JsString.

(** The first [n] code units of [s]. *)
Fixpoint take (n : nat) (s : string) : string :=
  match n, s with
  | S k, String c s' => String c (take k s')
  | _, _ => EmptyString
  end.

(** [s.slice(0, e)] for an integer [e]: a negative end counts from the
    end of the string. *)
Definition slice0 (s : string) (e : Z) : string :=
  let len := Z.of_nat (String.length s) in
  let stop := if (e <? 0)%Z then Z.max (len + e) 0 else Z.min e len in
  take (Z.to_nat stop) s.

(** [s.includes(sub)] *)
Fixpoint includes (sub s : string) : bool :=
  String.prefix sub s ||
  match s with
  | String _ s' => includes sub s'
  | EmptyString => false
  end.

(** [s.split(sep)] for a non-empty separator, as the piece being read
    and the pieces after it; [skip] counts the code units of a matched
    separator still to be passed over. *)
Fixpoint split_go (sep s : string) (skip : nat) : string * list string :=
  match s with
  | EmptyString => (EmptyString, [])
  | String c s' =>
      match skip with
      | S k => split_go sep s' k
      | O =>
          if String.prefix sep s
          then (EmptyString,
                let '(cur, rest) := split_go sep s' (String.length sep - 1) in
                cur :: rest)
          else let '(cur, rest) := split_go sep s' 0 in (String c cur, rest)
      end
  end.

Definition split (sep s : string) : list string :=
  let '(cur, rest) := split_go sep s 0 in cur :: rest.

(** [pieces.join(sep)] *)
Fixpoint join (sep : string) (pieces : list string) : string :=
  match pieces with
  | [] => EmptyString
  | [p] => p
  | p :: rest => p +:+ sep +:+ join sep rest
  end.

(** The decimal text of an integer number, as in a template literal. *)
Definition of_number (n : Z) : string := pretty n.

End JsString.

(** ** The tags field of the forms *)

Module Tags.

(** [tags.split(',').map(tag => tag.trim()).filter(tag => tag)], in
    [handleSubmit] of the add-product and edit-wishlist forms. *)
Definition parse (tags : string) : list string :=
  List.filter Js.str_truthy (List.map Js.trim (JsString.split "," tags)).

(** [wishlist.tags ? wishlist.tags.join(', ') : ''], the field as the
    edit form is filled. *)
Definition show (tags : option (list string)) : string :=
  match tags with
  | Some ts => JsString.join ", " ts
  | None => EmptyString
  end.

End Tags.

(** A tag as the forms produce it. *)
Definition clean_tag (t : string) : Prop :=
  t <> "" /\ Js.trim t = t /\ JsString.includes "," t = false.

(** ** utils/helpers.js *)

Module Helpers.

(** The fragment of regular expressions used by the helpers: a
    sequence of literal characters, some of them optional ([c?]),
    anchored at the start of the subject ([^], no [m] flag). *)
Inductive atom : Type :=
| Lit (c : ascii)
| Opt (c : ascii).

Definition eat (c : ascii) (s : string) : option string :=
  match s with
  | String c' s' => if Ascii.eqb c' c then Some s' else None
  | EmptyString => None
  end.

(** [test_anchored r s]: does [/^r/] match [s]?  An optional atom is
    tried greedily, then skipped (backtracking). *)
Fixpoint test_anchored (r : list atom) (s : string) : bool :=
  match r with
  | [] => true
  | Lit c :: r' =>
      match eat c s with
      | Some s' => test_anchored r' s'
      | None => false
      end
  | Opt c :: r' =>
      match eat c s with
      | Some s' => test_anchored r' s' || test_anchored r' s
      | None => test_anchored r' s
      end
  end.

(** [/^https?:\/\//] *)
Definition protocol_re : list atom :=
  [Lit "h"; Lit "t"; Lit "t"; Lit "p"; Opt "s"; Lit ":"; Lit "/"; Lit "/"]%char.

(** [ensureUrlProtocol]:
<<
    if (!url) return url;
    if (url.match(/^https?:\/\//)) return url;
    return `https://${url}`;
>> *)
Definition ensureUrlProtocol (url : string) : string :=
  if negb (Js.str_truthy url) then url
  else if test_anchored protocol_re url then url
  else "https://" +:+ url.

(** The wording of the specification: the input begins with [http://]
    or [https://]. *)
Definition begins_with (p s : string) : Prop := exists rest, s = p +:+ rest.

Definition has_protocol (s : string) : Prop :=
  begins_with "http://" s \/ begins_with "https://" s.

End Helpers.

(** ** Records exchanged with the backend *)

Module ReactionUser.
Record t : Type := mk { _id : string }.
End ReactionUser.

Module Reaction.
Record t : Type := mk { user : ReactionUser.t; emoji : string }.
End Reaction.

Module Product.
Record t : Type := mk {
  _id : string;
  wishlist : string;
  name : string;
  reactions : option (list Reaction.t)
}.
End Product.

Module Wishlist.
Record t : Type := mk { _id : string; title : string }.
End Wishlist.

(** The user object of the auth context ([user?.id]). *)
Module AuthUser.
Record t : Type := mk { id : string }.
End AuthUser.

(** The add-product form ([formData]). *)
Module FormData.
Record t : Type := mk {
  name : string;
  description : string;
  price : string;
  currency : string;
  imageUrl : string;
  productUrl : string;
  category : string;
  brand : string;
  priority : string;
  tags : string
}.

Definition initial : t :=
  mk "" "" "" "USD" "" "" "" "" "medium" "".
End FormData.

(** The [price] of the object handed to [onSubmit]: the number [0], or
    [parseFloat] of the text of the field, which is left unevaluated. *)
Module Price.
Inductive t : Type :=
| Zero
| ParseFloat (text : string).
End Price.

(** The object handed to [onSubmit]:
    [{...formData, price: ..., tags: ..., wishlistId}]. *)
Module ProductData.
Record t : Type := mk {
  name : string;
  description : string;
  price : Price.t;
  currency : string;
  imageUrl : string;
  productUrl : string;
  category : string;
  brand : string;
  priority : string;
  tags : list string;
  wishlistId : string
}.
End ProductData.

(** ** HTTP errors as the handlers inspect them *)

Module ResponseData.
Record t : Type := mk { message : option string }.
End ResponseData.

Module Response.
Record t : Type := mk {
  status : Z;
  statusText : string;
  data : option ResponseData.t
}.
End Response.

(** A caught error: [err.response], whether [err.request] is set, and
    [err.message]. *)
Module JsError.
Record t : Type := mk {
  response : option Response.t;
  request : bool;
  message : string
}.

(** [error.response?.data?.message] *)
Definition server_message (e : t) : option string :=
  match response e with
  | Some r =>
      match Response.data r with
      | Some d => ResponseData.message d
      | None => None
      end
  | None => None
  end.

(** [error.response?.status] *)
Definition status (e : t) : option Z :=
  match response e with
  | Some r => Some (Response.status r)
  | None => None
  end.
End JsError.

(** The settlement of an awaited request. *)
Inductive outcome (A : Type) : Type :=
| Resolved (data : A)
| Rejected (error : JsError.t).
Arguments Resolved {A} data.
Arguments Rejected {A} error.

(** ** What a handler does to its collaborators *)

(** [{ wishlistId, product }] *)
Module ProductEvent.
Record t : Type := mk { wishlistId : string; product : Product.t }.
End ProductEvent.

(** [{ wishlistId, productId }] *)
Module ProductDeletedEvent.
Record t : Type := mk { wishlistId : string; productId : string }.
End ProductDeletedEvent.

Inductive payload : Type :=
| RoomId (wishlistId : string)
| ProductPayload (d : ProductEvent.t)
| ProductDeletedPayload (d : ProductDeletedEvent.t)
| ReactionRemovePayload (wishlistId productId userId : string)
| ReactionAddPayload (wishlistId productId : string) (reaction : Reaction.t).

Inductive rest_call : Type :=
| ProductsCreate (productData : ProductData.t)
| ProductsDelete (id : string)
| ProductsAddReaction (id : string) (emoji : string)
| ProductsRemoveReaction (id : string)
| WishlistsJoinByInvite (inviteCode : string).

Inductive action : Type :=
| Rest (c : rest_call)
| Emit (event : string) (data : payload)
| CallOnDelete (productId : string)
| CallOnSuccess (w : Wishlist.t)
| CallOnClose.

Definition is_emit (a : action) : bool :=
  match a with
  | Emit _ _ => true
  | _ => false
  end.

Definition is_rest (a : action) : bool :=
  match a with
  | Rest _ => true
  | _ => false
  end.

(** ** services/socket.js *)

Module SocketService.

(** [socket] tells whether [this.socket] is set. *)
Record t : Type := mk { socket : bool; isConnected : bool }.

(** The singleton as constructed. *)
Definition initial : t := mk false false.

(** [connect()]: creates the socket when there is none and asks it to
    connect; [isConnected] changes only in the ['connect'] and
    ['disconnect'] listeners. *)
Definition connect (s : t) : t := mk true (isConnected s).

Definition on_connect (s : t) : t := mk (socket s) true.

Definition on_disconnect (s : t) : t := mk (socket s) false.

Definition disconnect (s : t) : t :=
  if socket s then mk false false else s.

(** The body shared by every emitter:
    [if (this.socket && this.isConnected) this.socket.emit(event, data)]. *)
Definition emit (s : t) (event : string) (data : payload) : list action :=
  if socket s && isConnected s then [Emit event data] else [].

Definition joinWishlist (s : t) (wishlistId : string) : list action :=
  emit s "join-wishlist" (RoomId wishlistId).

Definition leaveWishlist (s : t) (wishlistId : string) : list action :=
  emit s "leave-wishlist" (RoomId wishlistId).

Definition emitProductAdded (s : t) (d : ProductEvent.t) : list action :=
  emit s "product-added" (ProductPayload d).

Definition emitProductUpdated (s : t) (d : ProductEvent.t) : list action :=
  emit s "product-updated" (ProductPayload d).

Definition emitProductDeleted (s : t) (d : ProductDeletedEvent.t) : list action :=
  emit s "product-deleted" (ProductDeletedPayload d).

Definition emitReactionAdded (s : t) (d : payload) : list action :=
  emit s "reaction-added" d.

End SocketService.

(** ** services/api.js: the response interceptor *)

Module Api.

(** The browser globals the interceptor touches. *)
Record browser : Type := mkBrowser {
  localStorage : gmap string string;
  location_href : string
}.

(** The rejection handler of [api.interceptors.response.use]:
<<
    if (error.response?.status === 401) {
      localStorage.removeItem('token');
      localStorage.removeItem('user');
      window.location.href = '/login';
    }
    return Promise.reject(error);
>> *)
Definition on_response_error (error : JsError.t) (b : browser)
  : browser * outcome Response.t :=
  match JsError.status error with
  | Some st =>
      if (st =? 401)%Z
      then (mkBrowser (delete "user" (delete "token" (localStorage b))) "/login",
            Rejected error)
      else (b, Rejected error)
  | None => (b, Rejected error)
  end.

(** The fulfilment handler, [(response) => response]. *)
Definition on_response (r : Response.t) (b : browser)
  : browser * outcome Response.t :=
  (b, Resolved r).

End Api.

(** ** pages/WishlistDetail.jsx *)

Module WishlistDetail.

Record state : Type := mkState {
  products : list Product.t;
  showAddProduct : bool
}.

Definition setProducts (f : list Product.t -> list Product.t) (st : state) : state :=
  mkState (f (products st)) (showAddProduct st).

(** [id] is the route parameter of the page. *)
Definition handleProductAdded (id : string) (data : ProductEvent.t) (st : state) : state :=
  if String.eqb (ProductEvent.wishlistId data) id
  then setProducts (fun prev => ProductEvent.product data :: prev) st
  else st.

Definition handleProductUpdated (id : string) (data : ProductEvent.t) (st : state) : state :=
  if String.eqb (ProductEvent.wishlistId data) id
  then setProducts
         (fun prev =>
            map (fun p =>
                   if String.eqb (Product._id p) (Product._id (ProductEvent.product data))
                   then ProductEvent.product data else p) prev) st
  else st.

Definition handleProductDeleted (id : string) (data : ProductDeletedEvent.t) (st : state) : state :=
  if String.eqb (ProductDeletedEvent.wishlistId data) id
  then setProducts
         (fun prev =>
            List.filter
              (fun p => negb (String.eqb (Product._id p) (ProductDeletedEvent.productId data)))
              prev) st
  else st.

(** The messages the effect subscribes to. *)
Inductive incoming : Type :=
| ProductAdded (data : ProductEvent.t)
| ProductUpdated (data : ProductEvent.t)
| ProductDeleted (data : ProductDeletedEvent.t).

(** Delivery of one message to the handlers registered by [useEffect]. *)
Definition receive (id : string) (ev : incoming) (st : state) : state :=
  match ev with
  | ProductAdded data => handleProductAdded id data st
  | ProductUpdated data => handleProductUpdated id data st
  | ProductDeleted data => handleProductDeleted id data st
  end.

(** [handleAddProduct]: the third component is the message of the
    [Error] thrown to the caller, if any. *)
Definition handleAddProduct (id : string) (sock : SocketService.t)
    (response : outcome Product.t) (productData : ProductData.t) (st : state)
  : state * list action * option string :=
  match response with
  | Resolved data =>
      (mkState (data :: products st) false,
       Rest (ProductsCreate productData)
         :: SocketService.emitProductAdded sock (ProductEvent.mk id data),
       None)
  | Rejected error =>
      (st,
       [Rest (ProductsCreate productData)],
       Some (Js.or_else (JsError.server_message error) "Failed to add product"))
  end.

(** [handleDeleteProduct], passed to the cards as [onDelete]. *)
Definition handleDeleteProduct (productId : string) (st : state) : state :=
  setProducts
    (fun prev => List.filter (fun p => negb (String.eqb (Product._id p) productId)) prev) st.

End WishlistDetail.

(** ** components/ProductCard.jsx *)

Module ProductCard.

(** [product.reactions?.find(r => r.user._id === user?.id)] *)
Definition userReaction (user : option AuthUser.t) (product : Product.t)
  : option Reaction.t :=
  match Product.reactions product with
  | Some rs =>
      List.find
        (fun r =>
           match user with
           | Some u => String.eqb (ReactionUser._id (Reaction.user r)) (AuthUser.id u)
           | None => false
           end) rs
  | None => None
  end.

(** The second [if] of [handleReaction]:
    [!userReaction || userReaction.emoji !== emoji]. *)
Definition wants_add (ur : option Reaction.t) (emoji : string) : bool :=
  match ur with
  | None => true
  | Some r => negb (String.eqb (Reaction.emoji r) emoji)
  end.

Definition add_step (sock : SocketService.t) (product : Product.t)
    (ur : option Reaction.t) (emoji : string) (added : outcome Reaction.t)
  : list action :=
  if wants_add ur emoji then
    match added with
    | Resolved data =>
        Rest (ProductsAddReaction (Product._id product) emoji)
          :: SocketService.emitReactionAdded sock
               (ReactionAddPayload (Product.wishlist product) (Product._id product) data)
    | Rejected _ => [Rest (ProductsAddReaction (Product._id product) emoji)]
    end
  else [].

(** [handleReaction]: [removed] and [added] settle the two requests
    when they are issued; an exception leaves the [try] block. *)
Definition handleReaction (sock : SocketService.t) (user : option AuthUser.t)
    (product : Product.t) (emoji : string)
    (removed : outcome unit) (added : outcome Reaction.t) : list action :=
  match userReaction user product with
  | Some r =>
      match removed with
      | Resolved _ =>
          match user with
          | Some u =>
              Rest (ProductsRemoveReaction (Product._id product))
                :: SocketService.emitReactionAdded sock
                     (ReactionRemovePayload (Product.wishlist product)
                        (Product._id product) (AuthUser.id u))
                ++ add_step sock product (Some r) emoji added
          | None => [Rest (ProductsRemoveReaction (Product._id product))]
          end
      | Rejected _ => [Rest (ProductsRemoveReaction (Product._id product))]
      end
  | None => add_step sock product None emoji added
  end.

(** [handleDelete]: [confirmed] is the answer of [window.confirm]. *)
Definition handleDelete (sock : SocketService.t) (product : Product.t)
    (confirmed : bool) (response : outcome unit) : list action :=
  if confirmed then
    match response with
    | Resolved _ =>
        Rest (ProductsDelete (Product._id product))
          :: CallOnDelete (Product._id product)
          :: SocketService.emitProductDeleted sock
               (ProductDeletedEvent.mk (Product.wishlist product) (Product._id product))
    | Rejected _ => [Rest (ProductsDelete (Product._id product))]
    end
  else [].

(** The two entries of the card menu.  The handler of [Edit] is the
    empty arrow function. *)
Inductive menu_item : Type := Edit | Delete.

Definition menu_click (item : menu_item) (sock : SocketService.t) (product : Product.t)
    (confirmed : bool) (response : outcome unit) : list action :=
  match item with
  | Edit => []
  | Delete => handleDelete sock product confirmed response
  end.

End ProductCard.

(** ** The reactions endpoint as seen from the card

    [DELETE /products/:id/reactions] and [POST /products/:id/reactions]
    are served by the backend, which is not part of this repository; a
    backend is any pair of functions on the reaction list of the
    product, indexed by the calling user. *)

Module Backend.

Record t : Type := mk {
  remove : string -> list Reaction.t -> list Reaction.t;
  add : string -> string -> list Reaction.t -> list Reaction.t
}.

Definition by_user (uid : string) (r : Reaction.t) : bool :=
  String.eqb (ReactionUser._id (Reaction.user r)) uid.

Definition count_by (uid : string) (rs : list Reaction.t) : nat :=
  length (List.filter (by_user uid) rs).

(** The effect of one action of the card on the stored reactions: a
    request changes them only when it is fulfilled. *)
Definition serve (B : t) (uid : string)
    (removed : outcome unit) (added : outcome Reaction.t)
    (rs : list Reaction.t) (a : action) : list Reaction.t :=
  match a with
  | Rest (ProductsRemoveReaction _) =>
      match removed with
      | Resolved _ => remove B uid rs
      | Rejected _ => rs
      end
  | Rest (ProductsAddReaction _ e) =>
      match added with
      | Resolved _ => add B uid e rs
      | Rejected _ => rs
      end
  | _ => rs
  end.

Definition run (B : t) (uid : string)
    (removed : outcome unit) (added : outcome Reaction.t)
    (trace : list action) (rs : list Reaction.t) : list Reaction.t :=
  fold_left (serve B uid removed added) trace rs.

(** A backend that drops every reaction of the caller and appends the
    new one. *)
Definition simple : t :=
  mk (fun uid rs => List.filter (fun r => negb (by_user uid r)) rs)
     (fun uid e rs => (rs ++ [Reaction.mk (ReactionUser.mk uid) e])%list).

End Backend.

(** The requests of a trace, in order. *)
Fixpoint requests (trace : list action) : list rest_call :=
  match trace with
  | Rest c :: t => c :: requests t
  | _ :: t => requests t
  | [] => []
  end.

(** The socket messages of a trace, in order. *)
Fixpoint emitted (trace : list action) : list (string * payload) :=
  match trace with
  | Emit ev d :: t => (ev, d) :: emitted t
  | _ :: t => emitted t
  | [] => []
  end.

(** ** components/JoinWishlistModal.jsx *)

Module JoinWishlistModal.

Record state : Type := mkState {
  inviteCode : string;
  isLoading : bool;
  error : string
}.

(** [handleSubmit]; [response] settles [wishlistsAPI.joinByInvite] and
    carries [response.data.wishlist]. *)
Definition handleSubmit (response : outcome Wishlist.t) (st : state)
  : state * list action :=
  if negb (Js.str_truthy (Js.trim (inviteCode st))) then (st, [])
  else
    match response with
    | Resolved w =>
        (mkState "" false "",
         [Rest (WishlistsJoinByInvite (Js.trim (inviteCode st)));
          CallOnSuccess w; CallOnClose])
    | Rejected e =>
        (mkState (inviteCode st) false
           (Js.or_else (JsError.server_message e) "Failed to join wishlist"),
         [Rest (WishlistsJoinByInvite (Js.trim (inviteCode st)))])
    end.

Definition handleClose (st : state) : state * list action :=
  if negb (isLoading st) then (mkState "" false "", [CallOnClose])
  else (st, []).

End JoinWishlistModal.

(** ** components/AddProductModal.jsx *)

Module AddProductModal.

Record state : Type := mkState {
  formData : FormData.t;
  isLoading : bool;
  error : string
}.

(** The [disabled] attribute of the submit button:
    [isLoading || !formData.name.trim()]. *)
Definition submit_disabled (st : state) : bool :=
  isLoading st || negb (Js.str_truthy (Js.trim (FormData.name (formData st)))).

(** The object built in [handleSubmit]:
<<
    { ...formData,
      price: formData.price ? parseFloat(formData.price) : 0,
      tags: formData.tags.split(',').map(tag => tag.trim()).filter(tag => tag),
      wishlistId }
>> *)
Definition productData (f : FormData.t) (wishlistId : string) : ProductData.t :=
  ProductData.mk
    (FormData.name f)
    (FormData.description f)
    (if Js.str_truthy (FormData.price f)
     then Price.ParseFloat (FormData.price f) else Price.Zero)
    (FormData.currency f)
    (FormData.imageUrl f)
    (FormData.productUrl f)
    (FormData.category f)
    (FormData.brand f)
    (FormData.priority f)
    (Tags.parse (FormData.tags f))
    wishlistId.

(** [handleSubmit]: [onSubmit] is the prop of the parent, acting on the
    parent's world [W]; it returns the actions it performed and the
    message of the error it threw, if any. *)
Definition handleSubmit {W : Type} (wishlistId : string)
    (onSubmit : ProductData.t -> W -> W * list action * option string)
    (st : state) (w : W) : state * W * list action :=
  match onSubmit (productData (formData st) wishlistId) w with
  | (w', acts, None) => (mkState FormData.initial false "", w', acts)
  | (w', acts, Some msg) => (mkState (formData st) false msg, w', acts)
  end.

(** Activating the submit control (a click on the button, or Enter in a
    field, whose default button it is): a disabled control submits
    nothing. *)
Definition submit {W : Type} (wishlistId : string)
    (onSubmit : ProductData.t -> W -> W * list action * option string)
    (st : state) (w : W) : state * W * list action :=
  if submit_disabled st then (st, w, [])
  else handleSubmit wishlistId onSubmit st w.

End AddProductModal.

(** The modal as mounted by the page: [onSubmit={handleAddProduct}],
    [wishlistId={id}]. *)
Definition page_submit (id : string) (sock : SocketService.t)
    (response : outcome Product.t)
    (modal : AddProductModal.state) (page : WishlistDetail.state)
  : AddProductModal.state * WishlistDetail.state * list action :=
  AddProductModal.submit id (WishlistDetail.handleAddProduct id sock response) modal page.

(** ** components/ImageUpload.jsx: the [catch] branch of [onDrop] *)

Module ImageUpload.

Record state : Type := mkState {
  uploading : bool;
  uploadProgress : Z;
  error : string;
  success : bool
}.

Definition msg_default : string := "Upload failed".
Definition msg_not_configured : string :=
  "Image upload service not configured. Please check server configuration.".
Definition msg_no_connection : string :=
  "Unable to connect to server. Please check your connection.".

(** The message computed from the caught error. *)
Definition errorMessage (err : JsError.t) : string :=
  match JsError.response err with
  | Some r =>
      let m :=
        Js.or_else
          (Some
             (Js.or_else
                (match Response.data r with
                 | Some d => ResponseData.message d
                 | None => None
                 end)
                (Response.statusText r)))
          msg_default in
      if (Response.status r =? 503)%Z then msg_not_configured else m
  | None =>
      if JsError.request err then msg_no_connection
      else Js.or_else (Some (JsError.message err)) msg_default
  end.

(** The state after a failed upload: [setError(errorMessage)] in
    [catch], [setUploading(false)] in [finally]; the two were reset
    before the request. *)
Definition upload_failed (err : JsError.t) (st : state) : state :=
  mkState false 0 (errorMessage err) false.

End ImageUpload.

(** ** The wording of the specification for list updates

    The two relations below follow the sentences of the specification,
    not the code: they are compared with the handlers further down. *)

(** [replaced_by_id q l l']: [l'] is [l] with exactly the elements
    whose [_id] is that of [q] replaced by [q]. *)
Inductive replaced_by_id (q : Product.t) : list Product.t -> list Product.t -> Prop :=
| replaced_nil : replaced_by_id q [] []
| replaced_hit (p : Product.t) (l l' : list Product.t) :
    Product._id p = Product._id q ->
    replaced_by_id q l l' -> replaced_by_id q (p :: l) (q :: l')
| replaced_miss (p : Product.t) (l l' : list Product.t) :
    Product._id p <> Product._id q ->
    replaced_by_id q l l' -> replaced_by_id q (p :: l) (p :: l').

(** [removed_by_id pid l l']: [l'] is [l] without exactly the elements
    whose [_id] is [pid], the others unchanged and in order. *)
Inductive removed_by_id (pid : string) : list Product.t -> list Product.t -> Prop :=
| removed_nil : removed_by_id pid [] []
| removed_drop (p : Product.t) (l l' : list Product.t) :
    Product._id p = pid ->
    removed_by_id pid l l' -> removed_by_id pid (p :: l) l'
| removed_keep (p : Product.t) (l l' : list Product.t) :
    Product._id p <> pid ->
    removed_by_id pid l l' -> removed_by_id pid (p :: l) (p :: l').

(** The wishlist identifier carried by a message. *)
Definition wishlistId_of (ev : WishlistDetail.incoming) : string :=
  match ev with
  | WishlistDetail.ProductAdded d => ProductEvent.wishlistId d
  | WishlistDetail.ProductUpdated d => ProductEvent.wishlistId d
  | WishlistDetail.ProductDeleted d => ProductDeletedEvent.wishlistId d
  end.

(** A string made of white space only (the empty string included). *)
Fixpoint whitespace_only (s : string) : bool :=
  match s with
  | String c s' => Js.is_space c && whitespace_only s'
  | EmptyString => true
  end.

(** ** Sample data for the examples *)

Module Sample.

Definition lamp : Product.t := Product.mk "p1" "w1" "Lamp" None.
Definition desk : Product.t := Product.mk "p2" "w1" "Desk" None.
Definition lamp2 : Product.t := Product.mk "p1" "w1" "Brass lamp" None.
Definition chair : Product.t := Product.mk "p3" "w1" "Chair" None.

Definition page : WishlistDetail.state :=
  WishlistDetail.mkState [lamp; desk] true.

Definition form : FormData.t :=
  FormData.mk "Chair" "" "40" "USD" "" "" "" "" "medium" "".

Definition productData : ProductData.t :=
  ProductData.mk "Chair" "" (Price.ParseFloat "40") "USD" "" "" "" "" "medium" [] "w1".

(** The socket service right after [connect()], before the
    ['connect'] listener has run. *)
Definition connecting : SocketService.t :=
  SocketService.connect SocketService.initial.

Definition connected : SocketService.t :=
  SocketService.on_connect connecting.

Definition ann : AuthUser.t := AuthUser.mk "u1".

Definition heart_by_ann : Reaction.t := Reaction.mk (ReactionUser.mk "u1") "heart".
Definition fire_by_bob : Reaction.t := Reaction.mk (ReactionUser.mk "u2") "fire".

Definition liked_lamp : Product.t :=
  Product.mk "p1" "w1" "Lamp" (Some [fire_by_bob; heart_by_ann]).

Definition unauthorized : JsError.t :=
  JsError.mk (Some (Response.mk 401 "Unauthorized" None)) true
    "Request failed with status code 401".

Definition invalid_code : JsError.t :=
  JsError.mk
    (Some (Response.mk 404 "Not Found"
             (Some (ResponseData.mk (Some "Invalid invite code")))))
    true "Request failed with status code 404".

(** An error raised before any request left the browser. *)
Definition setup_error : JsError.t :=
  JsError.mk None false "Invalid URL".

(** A response without body message and without reason phrase. *)
Definition bare_500 : JsError.t :=
  JsError.mk (Some (Response.mk 500 "" None)) true
    "Request failed with status code 500".

Definition storage : gmap string string :=
  <["theme" := "dark"]> (<["user" := "{}"]> (<["token" := "abc"]> ∅)).

End Sample.

(** * The rest of the modules *)


(** ** utils/helpers.js, continued *)

Module Text.

(** [truncateText(text, maxLength = 100)] for an integer [maxLength]. *)
Definition truncateText (text : string) (maxLength : Z) : string :=
  if (Z.of_nat (String.length text) <=? maxLength)%Z then text
  else JsString.slice0 text maxLength +:+ "...".

(** [formatRelativeTime(date)]: [now] and [target] are the two dates in
    milliseconds, [formatted] what [formatDate(date)] returns. *)
Definition formatRelativeTime (formatted : string) (now target : Z) : string :=
  let diffInSeconds := ((now - target) / 1000)%Z in
  if (diffInSeconds <? 60)%Z then "just now"
  else
    let diffInMinutes := (diffInSeconds / 60)%Z in
    if (diffInMinutes <? 60)%Z then JsString.of_number diffInMinutes +:+ "m ago"
    else
      let diffInHours := (diffInMinutes / 60)%Z in
      if (diffInHours <? 24)%Z then JsString.of_number diffInHours +:+ "h ago"
      else
        let diffInDays := (diffInHours / 24)%Z in
        if (diffInDays <? 7)%Z then JsString.of_number diffInDays +:+ "d ago"
        else formatted.

End Text.

Module Cloudinary.

(** [isCloudinaryUrl(url)] *)
Definition isCloudinaryUrl (url : string) : bool :=
  if negb (Js.str_truthy url) then false
  else JsString.includes "cloudinary.com" url
       || JsString.includes "res.cloudinary.com" url.

(** The [options] argument; a missing property is [None], a number is
    an integer. *)
Record options : Type := mkOptions {
  width : option Z;
  height : option Z;
  quality : option string;
  format : option string;
  crop : option string;
  gravity : option string
}.

Definition no_options : options := mkOptions None None None None None None.

(** Truthiness of a number or [undefined]. *)
Definition num_truthy (n : option Z) : bool :=
  match n with
  | Some z => negb (z =? 0)%Z
  | None => false
  end.

(** The first entry of [transformations], pushed when [width || height]. *)
Definition sizeTransform (width height : option Z) (crop gravity : string) : string :=
  let t0 := EmptyString in
  let t1 := if num_truthy width
            then t0 +:+ "w_" +:+ JsString.of_number (default 0%Z width) else t0 in
  let t2 := if num_truthy height
            then t1 +:+ (if Js.str_truthy t1 then "," else "")
                 +:+ "h_" +:+ JsString.of_number (default 0%Z height)
            else t1 in
  let t3 := if Js.str_truthy crop then t2 +:+ ",c_" +:+ crop else t2 in
  if Js.str_truthy gravity && String.eqb crop "fill"
  then t3 +:+ ",g_" +:+ gravity else t3.

Definition transformations (o : options) : list string :=
  let quality := default "auto" (quality o) in
  let format := default "auto" (format o) in
  let crop := default "fill" (crop o) in
  let gravity := default "auto" (gravity o) in
  ((if num_truthy (width o) || num_truthy (height o)
    then [sizeTransform (width o) (height o) crop gravity] else [])
   ++ (if Js.str_truthy quality then ["q_" +:+ quality] else [])
   ++ (if Js.str_truthy format then ["f_" +:+ format] else []))%list.

Definition transformString (o : options) : string :=
  match transformations o with
  | [] => EmptyString
  | ts => JsString.join "/" ts +:+ "/"
  end.

(** [getOptimizedImageUrl(url, options = {})] *)
Definition getOptimizedImageUrl (url : string) (o : options) : string :=
  if negb (isCloudinaryUrl url) then url
  else
    match JsString.split "/upload/" url with
    | [baseUrl; pathWithPublicId] =>
        baseUrl +:+ "/upload/" +:+ transformString o +:+ pathWithPublicId
    | _ => url
    end.

(** [getProductImageUrl(product, options = {})]: [imageUrl] is
    [product?.imageUrl]; the result is a string or [null].  The object
    literal ends with [...options], so a property present in [options]
    wins over [width], [height] and [crop] written before it. *)
Definition getProductImageUrl (imageUrl : option string) (o : options) : option string :=
  match imageUrl with
  | Some url =>
      if Js.str_truthy url then
        if isCloudinaryUrl url then
          Some (getOptimizedImageUrl url
                  (mkOptions
                     (Some (default 400%Z (width o)))
                     (Some (default 300%Z (height o)))
                     (quality o) (format o)
                     (Some (default "fill" (crop o)))
                     (gravity o)))
        else Some url
      else None
  | None => None
  end.

End Cloudinary.


(** ** services/api.js: the request interceptor *)

Module ApiRequest.

(** The part of the request configuration the interceptor touches. *)
Record config : Type := mkConfig { headers : gmap string string }.

(** [localStorage.getItem('token')]; when truthy,
    [config.headers.Authorization = `Bearer ${token}`]. *)
Definition on_request (b : Api.browser) (c : config) : config :=
  match Api.localStorage b !! "token" with
  | Some token =>
      if Js.str_truthy token
      then mkConfig (<["Authorization" := "Bearer " +:+ token]> (headers c))
      else c
  | None => c
  end.

End ApiRequest.

(** ** pages/WishlistDetail.jsx: the socket part of the effect *)

Module WishlistDetailEffect.

(** On mount: [socketService.connect(); socketService.joinWishlist(id)]. *)
Definition mount (id : string) (s : SocketService.t) : SocketService.t * list action :=
  (SocketService.connect s, SocketService.joinWishlist (SocketService.connect s) id).

(** The cleanup: [socketService.leaveWishlist(id)]. *)
Definition unmount (id : string) (s : SocketService.t) : list action :=
  SocketService.leaveWishlist s id.

End WishlistDetailEffect.

(** ** components/ProductCard.jsx, continued *)

Module ReactionCounts.

(** The accumulator is a plain object: reading a key it does not own
    goes to [Object.prototype].  These are the methods found there. *)
Definition inherited_methods : list string :=
  ["constructor"; "hasOwnProperty"; "isPrototypeOf"; "propertyIsEnumerable";
   "toLocaleString"; "toString"; "valueOf";
   "__defineGetter__"; "__defineSetter__"; "__lookupGetter__"; "__lookupSetter__"].

Definition inherits (k : string) : bool :=
  existsb (String.eqb k) inherited_methods.

(** An own property of the accumulator: a number, or the text that
    [method + 1] gives, which is the source text of the inherited
    method [key] followed by [ones] characters [1]. *)
Inductive value : Type :=
| Count (n : nat)
| NativeText (key : string) (ones : nat).

(** [(acc[k] || 0) + 1], [v] being the own property [k] if any: a
    number is incremented, a text (truthy) gets a [1] appended, and a
    key that is not owned reads the inherited method, if there is one. *)
Definition bump (k : string) (v : option value) : value :=
  match v with
  | Some (Count n) => Count (n + 1)
  | Some (NativeText key ones) => NativeText key (ones + 1)
  | None => if inherits k then NativeText k 1 else Count 1
  end.

(** One step of
    [reduce((acc, r) => { acc[r.emoji] = (acc[r.emoji] || 0) + 1; return acc }, {})].
    The key [__proto__] reads the prototype object and writes through
    its setter, which ignores a value that is not an object: the
    accumulator is unchanged. *)
Definition step (acc : gmap string value) (r : Reaction.t) : gmap string value :=
  let k := Reaction.emoji r in
  if String.eqb k "__proto__" then acc
  else <[k := bump k (acc !! k)]> acc.

(** [product.reactions?.reduce(..., {}) || {}] *)
Definition reactionCounts (product : Product.t) : gmap string value :=
  match Product.reactions product with
  | Some rs => fold_left step rs ∅
  | None => ∅
  end.

(** The number of reactions of a list that carry a given emoji. *)
Definition with_emoji (emoji : string) (rs : list Reaction.t) : nat :=
  length (List.filter (fun r => String.eqb (Reaction.emoji r) emoji) rs).

End ReactionCounts.

Module Comment.
Record t : Type := mk { _id : string; text : string }.
End Comment.

Module Comments.

Record state : Type := mkState {
  newComment : string;
  isSubmittingComment : bool
}.

Inductive act : Type :=
| AddComment (productId : string) (text : string)
| EmitCommentAdded (wishlistId productId : string) (comment : Comment.t).

(** [socketService.emitCommentAdded(data)], with the guard of every
    emitter. *)
Definition emitCommentAdded (s : SocketService.t)
    (wishlistId productId : string) (comment : Comment.t) : list act :=
  if SocketService.socket s && SocketService.isConnected s
  then [EmitCommentAdded wishlistId productId comment] else [].

(** [handleComment] *)
Definition handleComment (sock : SocketService.t) (product : Product.t)
    (response : outcome Comment.t) (st : state) : state * list act :=
  if negb (Js.str_truthy (Js.trim (newComment st))) then (st, [])
  else
    match response with
    | Resolved data =>
        (mkState "" false,
         AddComment (Product._id product) (newComment st)
           :: emitCommentAdded sock (Product.wishlist product) (Product._id product) data)
    | Rejected _ =>
        (mkState (newComment st) false,
         [AddComment (Product._id product) (newComment st)])
    end.

End Comments.

(** ** components/AddProductModal.jsx, continued *)

Module AddProductModalClose.

(** [handleClose]: after [setFormData], the handler calls
    [setImagePreview], which the component never declares; the call
    raises [ReferenceError] before [setError] and [onClose] are
    reached.  The third component is the message of the exception. *)
Definition handleClose (st : AddProductModal.state)
  : AddProductModal.state * list action * option string :=
  if negb (AddProductModal.isLoading st)
  then (AddProductModal.mkState FormData.initial
          (AddProductModal.isLoading st) (AddProductModal.error st),
        [],
        Some "setImagePreview is not defined")
  else (st, [], None).

End AddProductModalClose.

(** ** components/EditWishlistModal.jsx *)

Module EditWishlistModal.

Record form : Type := mkForm {
  title : string;
  description : string;
  isPublic : bool;
  tags : string
}.

(** The wishlist as the modal reads it; a missing property is [None]. *)
Record wishlist : Type := mkWishlist {
  w_title : option string;
  w_description : option string;
  w_isPublic : option bool;
  w_tags : option (list string)
}.

(** The object handed to [onSubmit]. *)
Record wishlistData : Type := mkData {
  d_title : string;
  d_description : string;
  d_isPublic : bool;
  d_tags : list string
}.

(** The effect that fills the form when the [wishlist] prop is set. *)
Definition fill (w : wishlist) : form :=
  mkForm (Js.or_else (w_title w) "")
         (Js.or_else (w_description w) "")
         (default false (w_isPublic w))
         (Tags.show (w_tags w)).

(** The argument of [onSubmit] in [handleSubmit]. *)
Definition submitted (f : form) : wishlistData :=
  mkData (title f) (description f) (isPublic f) (Tags.parse (tags f)).

End EditWishlistModal.

(** ** pages/Dashboard.jsx *)

Module Dashboard.

(** The handlers below that call [setWishlists] with a value read the
    [wishlists] of the render they were created in; it is the argument
    [wishlists], the state at the time the request settles being
    [current].  The others pass an updater and see [current]. *)

Definition handleCreateWishlist (wishlists : list Wishlist.t)
    (response : outcome Wishlist.t) (current : list Wishlist.t)
  : list Wishlist.t * option string :=
  match response with
  | Resolved data => (data :: wishlists, None)
  | Rejected error =>
      (current,
       Some (Js.or_else (JsError.server_message error) "Failed to create wishlist"))
  end.

(** [confirmed] is the answer of [window.confirm]. *)
Definition handleDeleteWishlist (wishlists : list Wishlist.t) (wishlistId : string)
    (confirmed : bool) (response : outcome unit) (current : list Wishlist.t)
  : list Wishlist.t :=
  if confirmed then
    match response with
    | Resolved _ =>
        List.filter (fun w => negb (String.eqb (Wishlist._id w) wishlistId)) wishlists
    | Rejected _ => current
    end
  else current.

Definition handleJoinWishlist (newWishlist : Wishlist.t) (current : list Wishlist.t)
  : list Wishlist.t :=
  newWishlist :: current.

End Dashboard.

(** ** components/AvatarUpload.jsx *)

Module File.
Record t : Type := mk { type : string; size : Z }.
End File.

Module AvatarUpload.

Record state : Type := mkState { uploading : bool; error : string }.

(** [response.data] of the upload. *)
Record data : Type := mkData { avatarUrl : option string }.

Inductive act : Type :=
| UploadAvatar (file : File.t)
| CallOnUpload (avatarUrl : option string).

Definition msg_not_configured : string :=
  "Avatar upload service not configured. Please check server configuration.".

(** The message computed in the [catch] branch. *)
Definition errorMessage (err : JsError.t) : string :=
  match JsError.response err with
  | Some r =>
      let m :=
        Js.or_else
          (Some
             (Js.or_else
                (match Response.data r with
                 | Some d => ResponseData.message d
                 | None => None
                 end)
                (Response.statusText r)))
          "Upload failed" in
      if (Response.status r =? 503)%Z then msg_not_configured else m
  | None =>
      if JsError.request err
      then "Unable to connect to server. Please check your connection."
      else Js.or_else (Some (JsError.message err)) "Upload failed"
  end.

(** [handleFileSelect], with the [onUpload] prop set: [file] is
    [event.target.files[0]]. *)
Definition handleFileSelect (file : option File.t) (response : outcome data)
    (st : state) : state * list act :=
  match file with
  | None => (st, [])
  | Some f =>
      if negb (String.prefix "image/" (File.type f))
      then (mkState (uploading st) "Only image files are allowed", [])
      else if (File.size f >? 5 * 1024 * 1024)%Z
      then (mkState (uploading st) "File too large. Maximum size is 5MB", [])
      else
        match response with
        | Resolved d => (mkState false "", [UploadAvatar f; CallOnUpload (avatarUrl d)])
        | Rejected err => (mkState false (errorMessage err), [UploadAvatar f])
        end
  end.

End AvatarUpload.

(** ** components/ImageUpload.jsx: [onDrop] *)

Module ImageDrop.

(** An entry of [rejectedFiles]: the codes of its [errors]. *)
Record rejection : Type := mkRejection { errors : list string }.

(** [response.data] of the upload. *)
Record data : Type := mkData {
  imageUrl : option string;
  avatarUrl : option string
}.

Inductive act : Type :=
| UploadAvatar (file : File.t)
| UploadProductImage (file : File.t)
| CallOnUpload (url : option string).

(** [Math.round(maxSize / 1024 / 1024)] for an integer [maxSize]. *)
Definition megabytes (maxSize : Z) : Z := ((maxSize + 524288) / 1048576)%Z.

Definition has_code (code : string) (r : rejection) : bool :=
  existsb (fun c => String.eqb c code) (errors r).

Definition rejection_message (maxSize : Z) (r : rejection) : string :=
  if has_code "file-too-large" r
  then "File too large. Maximum size is " +:+ JsString.of_number (megabytes maxSize) +:+ "MB"
  else if has_code "file-invalid-type" r
  then "Only image files are allowed"
  else "Invalid file".

(** [data.imageUrl || data.avatarUrl] *)
Definition uploaded_url (d : data) : option string :=
  match imageUrl d with
  | Some u => if Js.str_truthy u then Some u else avatarUrl d
  | None => avatarUrl d
  end.

(** [onDrop(acceptedFiles, rejectedFiles)] with the [onUpload] prop set. *)
Definition onDrop (uploadType : string) (maxSize : Z)
    (acceptedFiles : list File.t) (rejectedFiles : list rejection)
    (response : outcome data) (st : ImageUpload.state)
  : ImageUpload.state * list act :=
  match rejectedFiles with
  | r :: _ =>
      (ImageUpload.mkState (ImageUpload.uploading st) (ImageUpload.uploadProgress st)
         (rejection_message maxSize r) (ImageUpload.success st),
       [])
  | [] =>
      match acceptedFiles with
      | [] => (st, [])
      | file :: _ =>
          let request :=
            if String.eqb uploadType "avatar"
            then UploadAvatar file else UploadProductImage file in
          match response with
          | Resolved d =>
              (ImageUpload.mkState false 100 "" true,
               [request; CallOnUpload (uploaded_url d)])
          | Rejected err => (ImageUpload.upload_failed err st, [request])
          end
      end
  end.

End ImageDrop.

(** * Properties *)

(** ** Truthiness and [trim] *)

Lemma str_truthy_true (s : string) : Js.str_truthy s = true <-> s <> "".
Proof. destruct s; simpl; split; intros; congruence. Qed.

Lemma str_truthy_false (s : string) : Js.str_truthy s = false <-> s = "".
Proof. destruct s; simpl; split; intros; congruence. Qed.

Lemma or_else_present (m fallback : string) :
  m <> "" -> Js.or_else (Some m) fallback = m.
Proof. intros H. unfold Js.or_else. apply str_truthy_true in H. now rewrite H. Qed.

Lemma or_else_absent (o : option string) (fallback : string) :
  o = None \/ o = Some "" -> Js.or_else o fallback = fallback.
Proof. intros [-> | ->]; reflexivity. Qed.

(** ** [ensureUrlProtocol] *)

Lemma eat_Some (c : ascii) (s s' : string) :
  Helpers.eat c s = Some s' <-> s = String c s'.
Proof.
  unfold Helpers.eat. destruct s as [|c' t].
  - split; intros H; discriminate.
  - destruct (Ascii.eqb_spec c' c) as [-> | Hne].
    + split; intros H; congruence.
    + split; intros H; [discriminate | congruence].
Qed.

Ltac eat_step H :=
  match type of H with
  | context [Helpers.eat ?c ?s] =>
      let E := fresh "E" in
      destruct (Helpers.eat c s) eqn:E;
      [ apply eat_Some in E; subst | try discriminate H ]
  end.

Lemma protocol_re_sound (s : string) :
  Helpers.test_anchored Helpers.protocol_re s = true -> Helpers.has_protocol s.
Proof.
  unfold Helpers.protocol_re. cbn [Helpers.test_anchored]. intros H.
  do 4 eat_step H.
  eat_step H.
  - apply orb_true_iff in H. destruct H as [H | H].
    + do 3 eat_step H. right. eexists. reflexivity.
    + eat_step H; discriminate.
  - do 3 eat_step H. left. eexists. reflexivity.
Qed.

Lemma protocol_re_complete (s : string) :
  Helpers.has_protocol s -> Helpers.test_anchored Helpers.protocol_re s = true.
Proof.
  intros [[rest ->] | [rest ->]]; reflexivity.
Qed.

Lemma protocol_re_spec (s : string) :
  Helpers.test_anchored Helpers.protocol_re s = true <-> Helpers.has_protocol s.
Proof. split; [apply protocol_re_sound | apply protocol_re_complete]. Qed.

Lemma has_protocol_nonempty (s : string) : Helpers.has_protocol s -> s <> "".
Proof. intros [[rest ->] | [rest ->]]; discriminate. Qed.

Lemma has_protocol_https (s : string) : Helpers.has_protocol ("https://" +:+ s).
Proof. right. exists s. reflexivity. Qed.

(** C9: on a non-empty string, [ensureUrlProtocol] returns the input
    unchanged when it begins with [http://] or [https://] and prefixes
    it with [https://] otherwise; the two examples of the
    specification evaluate as stated. *)
Theorem ensureUrlProtocol_spec :
  (forall url : string,
      url <> "" ->
      (Helpers.has_protocol url -> Helpers.ensureUrlProtocol url = url) /\
      (~ Helpers.has_protocol url ->
       Helpers.ensureUrlProtocol url = "https://" +:+ url)) /\
  Helpers.ensureUrlProtocol "example.com" = "https://example.com" /\
  Helpers.ensureUrlProtocol "http://x.com" = "http://x.com".
Proof.
  split; [| split; reflexivity].
  intros url Hne. unfold Helpers.ensureUrlProtocol.
  apply str_truthy_true in Hne. rewrite Hne. cbn [negb].
  destruct (Helpers.test_anchored Helpers.protocol_re url) eqn:E.
  - split; [reflexivity |]. intros Hno. exfalso. apply Hno.
    now apply protocol_re_sound.
  - split; [| reflexivity]. intros Hp. apply protocol_re_complete in Hp.
    congruence.
Qed.

Lemma ensureUrlProtocol_spec_witness :
  "shop.example/item" <> "" /\
  Helpers.ensureUrlProtocol "shop.example/item" = "https://shop.example/item" /\
  Helpers.ensureUrlProtocol "https://shop.example" = "https://shop.example".
Proof.
  split; [discriminate |]. split.
  - apply (proj1 ensureUrlProtocol_spec "shop.example/item"); [discriminate |].
    intros [[rest H] | [rest H]]; discriminate H.
  - apply (proj1 ensureUrlProtocol_spec "https://shop.example"); [discriminate |].
    right. exists "shop.example". reflexivity.
Defined.

(** C10: [ensureUrlProtocol] is idempotent on every string; the empty
    string is returned unchanged. *)
Theorem ensureUrlProtocol_idempotent :
  (forall s : string,
      Helpers.ensureUrlProtocol (Helpers.ensureUrlProtocol s)
      = Helpers.ensureUrlProtocol s) /\
  Helpers.ensureUrlProtocol "" = "".
Proof.
  split; [| reflexivity].
  intros s. unfold Helpers.ensureUrlProtocol at 2 3.
  destruct (Js.str_truthy s) eqn:Ht; cbn [negb].
  - destruct (Helpers.test_anchored Helpers.protocol_re s) eqn:E.
    + unfold Helpers.ensureUrlProtocol. now rewrite Ht, E.
    + unfold Helpers.ensureUrlProtocol.
      rewrite (protocol_re_complete _ (has_protocol_https s)). reflexivity.
  - apply str_truthy_false in Ht. subst s. reflexivity.
Qed.

(** ** Socket events on the wishlist page *)

Lemma map_replace_spec (q : Product.t) (l : list Product.t) :
  replaced_by_id q l
    (map (fun p => if String.eqb (Product._id p) (Product._id q) then q else p) l).
Proof.
  induction l as [|p l IH]; simpl.
  - constructor.
  - destruct (String.eqb_spec (Product._id p) (Product._id q)) as [He | Hne].
    + now apply replaced_hit.
    + now apply replaced_miss.
Qed.

Lemma filter_remove_spec (pid : string) (l : list Product.t) :
  removed_by_id pid l
    (List.filter (fun p => negb (String.eqb (Product._id p) pid)) l).
Proof.
  induction l as [|p l IH]; simpl.
  - constructor.
  - destruct (String.eqb_spec (Product._id p) pid) as [He | Hne]; simpl.
    + now apply removed_drop.
    + now apply removed_keep.
Qed.

(** The two relations determine their result. *)
Lemma replaced_by_id_functional (q : Product.t) (l l1 l2 : list Product.t) :
  replaced_by_id q l l1 -> replaced_by_id q l l2 -> l1 = l2.
Proof.
  intros H1. revert l2.
  induction H1 as [| p l l1 He _ IH | p l l1 Hne _ IH]; intros l2 H2;
    inversion H2; subst; try congruence; f_equal; now apply IH.
Qed.

Lemma removed_by_id_functional (pid : string) (l l1 l2 : list Product.t) :
  removed_by_id pid l l1 -> removed_by_id pid l l2 -> l1 = l2.
Proof.
  intros H1. revert l2.
  induction H1 as [| p l l1 He _ IH | p l l1 Hne _ IH]; intros l2 H2;
    inversion H2; subst; try congruence; try (f_equal; now apply IH); now apply IH.
Qed.

(** What the relations say element by element. *)
Lemma replaced_by_id_lookup (q : Product.t) (l l' : list Product.t) :
  replaced_by_id q l l' ->
  length l' = length l /\
  forall (i : nat) (p : Product.t),
    l !! i = Some p ->
    (Product._id p = Product._id q -> l' !! i = Some q) /\
    (Product._id p <> Product._id q -> l' !! i = Some p).
Proof.
  induction 1 as [| p0 l l' He _ [IHlen IH] | p0 l l' Hne _ [IHlen IH]].
  - split; [reflexivity |]. intros i p Hi. destruct i; discriminate.
  - split; [simpl; congruence |]. intros [|i] p Hi; simpl in *.
    + injection Hi as <-. split; [reflexivity | congruence].
    + now apply IH.
  - split; [simpl; congruence |]. intros [|i] p Hi; simpl in *.
    + injection Hi as <-. split; [congruence | reflexivity].
    + now apply IH.
Qed.

Lemma removed_by_id_elem (pid : string) (l l' : list Product.t) :
  removed_by_id pid l l' ->
  l' `sublist_of` l /\
  forall p : Product.t, p ∈ l' <-> p ∈ l /\ Product._id p <> pid.
Proof.
  induction 1 as [| p0 l l' He _ [IHs IH] | p0 l l' Hne _ [IHs IH]].
  - split; [constructor |]. intros p. rewrite elem_of_nil. tauto.
  - split; [now apply sublist_cons |]. intros p.
    rewrite elem_of_cons, IH. split.
    + intros [Hin Hp]. tauto.
    + intros [[-> | Hin] Hp]; [congruence | tauto].
  - split; [now apply sublist_skip |]. intros p.
    rewrite !elem_of_cons, IH. split.
    + intros [-> | [Hin Hp]]; tauto.
    + intros [[-> | Hin] Hp]; tauto.
Qed.

(** C1: a message for another wishlist leaves the page state unchanged;
    a matching [product-added] prepends the carried product, a matching
    [product-updated] replaces exactly the elements with the carried
    product's [_id], and a matching [product-deleted] removes exactly
    the elements with the carried [productId], the others staying
    unchanged and in order. *)
Theorem socket_events_applied (id : string) (st : WishlistDetail.state) :
  (forall ev : WishlistDetail.incoming,
      wishlistId_of ev <> id -> WishlistDetail.receive id ev st = st) /\
  (forall d : ProductEvent.t,
      ProductEvent.wishlistId d = id ->
      WishlistDetail.products (WishlistDetail.receive id (WishlistDetail.ProductAdded d) st)
      = ProductEvent.product d :: WishlistDetail.products st) /\
  (forall d : ProductEvent.t,
      ProductEvent.wishlistId d = id ->
      replaced_by_id (ProductEvent.product d)
        (WishlistDetail.products st)
        (WishlistDetail.products
           (WishlistDetail.receive id (WishlistDetail.ProductUpdated d) st))) /\
  (forall d : ProductDeletedEvent.t,
      ProductDeletedEvent.wishlistId d = id ->
      removed_by_id (ProductDeletedEvent.productId d)
        (WishlistDetail.products st)
        (WishlistDetail.products
           (WishlistDetail.receive id (WishlistDetail.ProductDeleted d) st))).
Proof.
  repeat split.
  - intros ev Hne. destruct ev as [d | d | d]; simpl in *;
      [ unfold WishlistDetail.handleProductAdded
      | unfold WishlistDetail.handleProductUpdated
      | unfold WishlistDetail.handleProductDeleted ];
      apply String.eqb_neq in Hne; now rewrite Hne.
  - intros d <-. simpl. unfold WishlistDetail.handleProductAdded.
    now rewrite String.eqb_refl.
  - intros d <-. simpl. unfold WishlistDetail.handleProductUpdated.
    rewrite String.eqb_refl. simpl. apply map_replace_spec.
  - intros d <-. simpl. unfold WishlistDetail.handleProductDeleted.
    rewrite String.eqb_refl. simpl. apply filter_remove_spec.
Qed.

Lemma socket_events_applied_witness :
  WishlistDetail.receive "w1"
    (WishlistDetail.ProductAdded (ProductEvent.mk "w2" Sample.chair)) Sample.page
  = Sample.page /\
  WishlistDetail.products
    (WishlistDetail.receive "w1"
       (WishlistDetail.ProductAdded (ProductEvent.mk "w1" Sample.chair)) Sample.page)
  = [Sample.chair; Sample.lamp; Sample.desk] /\
  replaced_by_id Sample.lamp2 [Sample.lamp; Sample.desk]
    (WishlistDetail.products
       (WishlistDetail.receive "w1"
          (WishlistDetail.ProductUpdated (ProductEvent.mk "w1" Sample.lamp2)) Sample.page)) /\
  removed_by_id "p1" [Sample.lamp; Sample.desk]
    (WishlistDetail.products
       (WishlistDetail.receive "w1"
          (WishlistDetail.ProductDeleted (ProductDeletedEvent.mk "w1" "p1")) Sample.page)).
Proof.
  pose proof (socket_events_applied "w1" Sample.page) as (Hother & Hadd & Hupd & Hdel).
  split; [| split; [| split]].
  - apply Hother. simpl. discriminate.
  - apply (Hadd (ProductEvent.mk "w1" Sample.chair)). reflexivity.
  - apply (Hupd (ProductEvent.mk "w1" Sample.lamp2)). reflexivity.
  - apply (Hdel (ProductDeletedEvent.mk "w1" "p1")). reflexivity.
Defined.

(** ** Mutations started by this client *)

Lemma emit_connected (s : SocketService.t) (event : string) (data : payload) :
  SocketService.socket s = true -> SocketService.isConnected s = true ->
  SocketService.emit s event data = [Emit event data].
Proof. intros H1 H2. unfold SocketService.emit. now rewrite H1, H2. Qed.

Lemma emit_not_connected (s : SocketService.t) (event : string) (data : payload) :
  SocketService.socket s && SocketService.isConnected s = false ->
  SocketService.emit s event data = [].
Proof. intros H. unfold SocketService.emit. now rewrite H. Qed.

(** C2, as the code has it: a fulfilled create or delete request is
    the first action of the handler and is followed by one call of the
    matching emitter, which sends the message when the socket exists
    and is connected and sends nothing otherwise; the message of a create carries the page's wishlist id,
    that of a delete the [wishlist] field of the product; nothing is
    sent after a rejected request; the Edit entry of the card menu
    performs no request and sends nothing. *)
Theorem mutations_rest_then_emit (id : string) (sock : SocketService.t) :
  (forall (pd : ProductData.t) (p : Product.t) (st : WishlistDetail.state),
      let trace := snd (fst (WishlistDetail.handleAddProduct id sock (Resolved p) pd st)) in
      head trace = Some (Rest (ProductsCreate pd)) /\
      requests trace = [ProductsCreate pd] /\
      emitted trace =
        if SocketService.socket sock && SocketService.isConnected sock
        then [("product-added", ProductPayload (ProductEvent.mk id p))]
        else []) /\
  (forall (product : Product.t),
      let trace := ProductCard.menu_click ProductCard.Delete sock product true (Resolved tt) in
      head trace = Some (Rest (ProductsDelete (Product._id product))) /\
      requests trace = [ProductsDelete (Product._id product)] /\
      emitted trace =
        if SocketService.socket sock && SocketService.isConnected sock
        then [("product-deleted",
               ProductDeletedPayload
                 (ProductDeletedEvent.mk (Product.wishlist product) (Product._id product)))]
        else []) /\
  (forall (pd : ProductData.t) (e : JsError.t) (st : WishlistDetail.state),
      emitted (snd (fst (WishlistDetail.handleAddProduct id sock (Rejected e) pd st))) = []) /\
  (forall (product : Product.t) (e : JsError.t),
      emitted (ProductCard.menu_click ProductCard.Delete sock product true (Rejected e)) = []) /\
  (forall (product : Product.t) (confirmed : bool) (r : outcome unit),
      ProductCard.menu_click ProductCard.Edit sock product confirmed r = []).
Proof.
  repeat split.
  - simpl. unfold SocketService.emitProductAdded, SocketService.emit.
    now destruct (SocketService.socket sock && SocketService.isConnected sock).
  - simpl. unfold SocketService.emitProductAdded, SocketService.emit.
    now destruct (SocketService.socket sock && SocketService.isConnected sock).
  - simpl. unfold SocketService.emitProductDeleted, SocketService.emit.
    now destruct (SocketService.socket sock && SocketService.isConnected sock).
  - simpl. unfold SocketService.emitProductDeleted, SocketService.emit.
    now destruct (SocketService.socket sock && SocketService.isConnected sock).
Qed.

(** C2 as stated fails: with the socket created but not yet connected,
    a fulfilled create and a fulfilled delete send no message; and the
    card offers no update at all, its Edit entry doing nothing. *)
Lemma self_emit_counterexample :
  requests
    (snd (fst (WishlistDetail.handleAddProduct "w1" Sample.connecting
                 (Resolved Sample.chair) Sample.productData Sample.page)))
  = [ProductsCreate Sample.productData] /\
  emitted
    (snd (fst (WishlistDetail.handleAddProduct "w1" Sample.connecting
                 (Resolved Sample.chair) Sample.productData Sample.page)))
  = [] /\
  ProductCard.menu_click ProductCard.Delete Sample.connecting Sample.lamp true (Resolved tt)
  = [Rest (ProductsDelete "p1"); CallOnDelete "p1"] /\
  ProductCard.menu_click ProductCard.Edit Sample.connected Sample.lamp true (Resolved tt)
  = [].
Proof. repeat split. Qed.

(** ** The 401 interceptor *)

(** C3: on a 401 response the interceptor removes the [token] and
    [user] entries of local storage (the other entries stay), sets the
    location to the login view and rejects with the error; on any
    other error the browser state is unchanged and the error is
    rejected to the caller. *)
Theorem response_interceptor_spec (error : JsError.t) (b : Api.browser) :
  snd (Api.on_response_error error b) = Rejected error /\
  (JsError.status error = Some 401%Z ->
   let b' := fst (Api.on_response_error error b) in
   Api.localStorage b' !! "token" = None /\
   Api.localStorage b' !! "user" = None /\
   (forall k : string,
       k <> "token" -> k <> "user" ->
       Api.localStorage b' !! k = Api.localStorage b !! k) /\
   Api.location_href b' = "/login") /\
  (JsError.status error <> Some 401%Z ->
   fst (Api.on_response_error error b) = b).
Proof.
  unfold Api.on_response_error.
  destruct (JsError.status error) as [st |] eqn:Est.
  - destruct (Z.eqb_spec st 401) as [-> | Hne]; simpl.
    + split; [reflexivity |]. split; [| congruence].
      intros _. repeat split.
      * rewrite lookup_delete_ne by discriminate. apply lookup_delete_eq.
      * apply lookup_delete_eq.
      * intros k Hk1 Hk2. rewrite !lookup_delete_ne; congruence.
    + split; [reflexivity |]. split; [| reflexivity]. congruence.
  - simpl. split; [reflexivity |]. split; [discriminate | reflexivity].
Qed.

Lemma response_interceptor_spec_witness :
  Api.localStorage
    (fst (Api.on_response_error Sample.unauthorized (Api.mkBrowser Sample.storage "/dashboard")))
    !! "token" = None /\
  Api.localStorage
    (fst (Api.on_response_error Sample.unauthorized (Api.mkBrowser Sample.storage "/dashboard")))
    !! "theme" = Some "dark" /\
  fst (Api.on_response_error Sample.invalid_code (Api.mkBrowser Sample.storage "/dashboard"))
  = Api.mkBrowser Sample.storage "/dashboard".
Proof.
  pose proof (response_interceptor_spec Sample.unauthorized
                (Api.mkBrowser Sample.storage "/dashboard")) as (_ & H401 & _).
  destruct (H401 eq_refl) as (Htok & _ & Hother & _).
  pose proof (response_interceptor_spec Sample.invalid_code
                (Api.mkBrowser Sample.storage "/dashboard")) as (_ & _ & Hne).
  split; [exact Htok |]. split.
  - rewrite (Hother "theme"); [reflexivity | discriminate | discriminate].
  - apply Hne. discriminate.
Defined.

(** ** Joining a wishlist *)

(** C4: when the join request is rejected, the error state is the
    message of the server, or ['Failed to join wishlist'] when there is
    none, [onClose] and [onSuccess] are not called and the invite code
    stays; the two callbacks are called only after a fulfilled
    request. *)
Theorem join_failure_keeps_modal_open :
  (forall (st : JoinWishlistModal.state) (e : JsError.t),
      Js.trim (JoinWishlistModal.inviteCode st) <> "" ->
      let st' := fst (JoinWishlistModal.handleSubmit (Rejected e) st) in
      let trace := snd (JoinWishlistModal.handleSubmit (Rejected e) st) in
      (forall m : string,
          JsError.server_message e = Some m -> m <> "" ->
          JoinWishlistModal.error st' = m) /\
      (JsError.server_message e = None \/ JsError.server_message e = Some "" ->
       JoinWishlistModal.error st' = "Failed to join wishlist") /\
      JoinWishlistModal.inviteCode st' = JoinWishlistModal.inviteCode st /\
      JoinWishlistModal.isLoading st' = false /\
      (CallOnClose ∉ trace) /\
      (forall w : Wishlist.t, CallOnSuccess w ∉ trace)) /\
  (forall (st : JoinWishlistModal.state) (response : outcome Wishlist.t),
      let trace := snd (JoinWishlistModal.handleSubmit response st) in
      (CallOnClose ∈ trace \/ exists w : Wishlist.t, CallOnSuccess w ∈ trace) ->
      exists w : Wishlist.t,
        response = Resolved w /\
        trace = [Rest (WishlistsJoinByInvite (Js.trim (JoinWishlistModal.inviteCode st)));
                 CallOnSuccess w; CallOnClose]).
Proof.
  split.
  - intros st e Hcode. unfold JoinWishlistModal.handleSubmit.
    apply str_truthy_true in Hcode. rewrite Hcode. cbn.
    repeat split.
    + intros m -> Hm. now apply or_else_present.
    + intros H. now apply or_else_absent.
    + intros Hin. apply list_elem_of_singleton in Hin. discriminate.
    + intros w Hin. apply list_elem_of_singleton in Hin. discriminate.
  - intros st response. unfold JoinWishlistModal.handleSubmit.
    destruct (negb (Js.str_truthy (Js.trim (JoinWishlistModal.inviteCode st)))).
    + cbn. intros [Hin | [w Hin]]; apply elem_of_nil in Hin; contradiction.
    + destruct response as [w | e]; cbn.
      * intros _. exists w. split; reflexivity.
      * intros [Hin | [w Hin]]; apply list_elem_of_singleton in Hin; discriminate.
Qed.

Lemma join_failure_keeps_modal_open_witness :
  Js.trim " XK42 " <> "" /\
  fst (JoinWishlistModal.handleSubmit (Rejected Sample.invalid_code)
         (JoinWishlistModal.mkState " XK42 " false ""))
  = JoinWishlistModal.mkState " XK42 " false "Invalid invite code" /\
  JoinWishlistModal.error
    (fst (JoinWishlistModal.handleSubmit (Rejected Sample.bare_500)
            (JoinWishlistModal.mkState " XK42 " false "")))
  = "Failed to join wishlist".
Proof.
  assert (Hcode : Js.trim " XK42 " <> "") by (vm_compute; discriminate).
  split; [exact Hcode |]. split.
  - reflexivity.
  - apply (proj1 join_failure_keeps_modal_open
             (JoinWishlistModal.mkState " XK42 " false "") Sample.bare_500 Hcode).
    left. reflexivity.
Defined.

(** ** The add-product form *)

Lemma trim_end_nonempty (c : ascii) (s : string) :
  Js.is_space c = false -> Js.trim_end (String c s) <> "".
Proof.
  intros Hc. cbn [Js.trim_end]. rewrite Hc.
  destruct (Js.trim_end s); discriminate.
Qed.

Lemma trim_blank (s : string) : Js.trim s = "" <-> whitespace_only s = true.
Proof.
  unfold Js.trim. induction s as [|c s IH]; simpl.
  - tauto.
  - destruct (Js.is_space c) eqn:Hc; simpl.
    + exact IH.
    + split; [| discriminate]. intros H. exfalso.
      revert H. fold (Js.trim_end (String c s)). now apply trim_end_nonempty.
Qed.

(** C6: whenever the name is empty or made of white space only (that
    is, [name.trim()] is empty), or a submission is in flight, the
    submit control is disabled, and activating it performs no action
    at all (no [productsAPI.create]) and changes neither the form nor
    the page. *)
Theorem empty_name_never_submits
    (id : string) (sock : SocketService.t) (response : outcome Product.t)
    (modal : AddProductModal.state) (page : WishlistDetail.state) :
  whitespace_only (FormData.name (AddProductModal.formData modal)) = true \/
  Js.trim (FormData.name (AddProductModal.formData modal)) = "" \/
  AddProductModal.isLoading modal = true ->
  AddProductModal.submit_disabled modal = true /\
  page_submit id sock response modal page = (modal, page, []) /\
  requests (snd (page_submit id sock response modal page)) = [].
Proof.
  intros H.
  assert (Hd : AddProductModal.submit_disabled modal = true).
  { unfold AddProductModal.submit_disabled.
    destruct H as [H | [H | H]].
    - apply trim_blank in H. rewrite H. apply orb_true_r.
    - rewrite H. apply orb_true_r.
    - rewrite H. reflexivity. }
  unfold page_submit, AddProductModal.submit. rewrite Hd.
  repeat split.
Qed.

Lemma empty_name_never_submits_witness :
  whitespace_only "  " = true /\
  page_submit "w1" Sample.connected (Resolved Sample.chair)
    (AddProductModal.mkState
       (FormData.mk "  " "" "40" "USD" "" "" "" "" "medium" "") false "")
    Sample.page
  = (AddProductModal.mkState
       (FormData.mk "  " "" "40" "USD" "" "" "" "" "medium" "") false "",
     Sample.page, []).
Proof.
  split; [reflexivity |].
  apply (empty_name_never_submits "w1" Sample.connected (Resolved Sample.chair)
           (AddProductModal.mkState
              (FormData.mk "  " "" "40" "USD" "" "" "" "" "medium" "") false "")
           Sample.page).
  left. reflexivity.
Defined.

(** With a name and no submission in flight the same gesture does
    reach the REST client. *)
Lemma named_product_is_submitted :
  requests
    (snd (page_submit "w1" Sample.connected (Resolved Sample.chair)
            (AddProductModal.mkState Sample.form false "") Sample.page))
  = [ProductsCreate Sample.productData].
Proof. reflexivity. Qed.

(** ** Upload errors *)

(** C7, as the code has it: when the server responded, the message is
    the ['service not configured'] text for status 503 and otherwise
    the message of the server, else the status text, else
    ['Upload failed']; when there is no response but the request was
    made, it is the connectivity text; when there is neither, it is the
    message of the error, else ['Upload failed'].  The message becomes
    the error state and [uploading] is reset. *)
Theorem upload_error_message_spec (err : JsError.t) (st : ImageUpload.state) :
  ImageUpload.error (ImageUpload.upload_failed err st) = ImageUpload.errorMessage err /\
  ImageUpload.uploading (ImageUpload.upload_failed err st) = false /\
  match JsError.response err with
  | Some r =>
      (Response.status r = 503%Z ->
       ImageUpload.errorMessage err = ImageUpload.msg_not_configured) /\
      (Response.status r <> 503%Z ->
       (forall m : string,
           JsError.server_message err = Some m -> m <> "" ->
           ImageUpload.errorMessage err = m) /\
       (JsError.server_message err = None \/ JsError.server_message err = Some "" ->
        Response.statusText r <> "" ->
        ImageUpload.errorMessage err = Response.statusText r) /\
       (JsError.server_message err = None \/ JsError.server_message err = Some "" ->
        Response.statusText r = "" ->
        ImageUpload.errorMessage err = "Upload failed"))
  | None =>
      (JsError.request err = true ->
       ImageUpload.errorMessage err = ImageUpload.msg_no_connection) /\
      (JsError.request err = false ->
       (JsError.message err <> "" ->
        ImageUpload.errorMessage err = JsError.message err) /\
       (JsError.message err = "" ->
        ImageUpload.errorMessage err = "Upload failed"))
  end.
Proof.
  split; [reflexivity |]. split; [reflexivity |].
  unfold ImageUpload.errorMessage, JsError.server_message.
  destruct (JsError.response err) as [r |].
  - split.
    + intros ->. reflexivity.
    + intros Hne. apply Z.eqb_neq in Hne. rewrite Hne.
      set (sm := match Response.data r with
                 | Some d => ResponseData.message d
                 | None => None
                 end).
      repeat split.
      * intros m -> Hm. rewrite (or_else_present m _ Hm). now apply or_else_present.
      * intros Hsm Htxt. rewrite (or_else_absent sm _ Hsm). now apply or_else_present.
      * intros Hsm Htxt. rewrite (or_else_absent sm _ Hsm). rewrite Htxt. reflexivity.
  - split.
    + intros ->. reflexivity.
    + intros ->. split.
      * intros Hm. now apply or_else_present.
      * intros ->. reflexivity.
Qed.

Lemma upload_error_message_spec_witness :
  ImageUpload.errorMessage Sample.invalid_code = "Invalid invite code" /\
  ImageUpload.errorMessage Sample.setup_error = "Invalid URL".
Proof.
  split.
  - pose proof (upload_error_message_spec Sample.invalid_code
                  (ImageUpload.mkState true 0 "" false)) as (_ & _ & _ & H).
    apply H; [discriminate | reflexivity | discriminate].
  - pose proof (upload_error_message_spec Sample.setup_error
                  (ImageUpload.mkState true 0 "" false)) as (_ & _ & _ & H).
    apply H; [reflexivity | discriminate].
Defined.

(** C7 as stated fails: an error with neither response nor request
    shows its own message, not the connectivity text; and a response
    without message and without status text shows ['Upload failed']. *)
Lemma upload_error_counterexample :
  JsError.response Sample.setup_error = None /\
  ImageUpload.errorMessage Sample.setup_error = "Invalid URL" /\
  ImageUpload.errorMessage Sample.setup_error <> ImageUpload.msg_no_connection /\
  ImageUpload.errorMessage Sample.bare_500 = "Upload failed".
Proof. repeat split. discriminate. Qed.

(** ** Reactions *)

Lemma run_emit (B : Backend.t) (uid : string)
    (removed : outcome unit) (added : outcome Reaction.t)
    (s : SocketService.t) (event : string) (d : payload) (rs : list Reaction.t) :
  Backend.run B uid removed added (SocketService.emit s event d) rs = rs.
Proof.
  unfold SocketService.emit.
  destruct (SocketService.socket s && SocketService.isConnected s); reflexivity.
Qed.

Lemma run_app (B : Backend.t) (uid : string)
    (removed : outcome unit) (added : outcome Reaction.t)
    (t1 t2 : list action) (rs : list Reaction.t) :
  Backend.run B uid removed added (t1 ++ t2)%list rs
  = Backend.run B uid removed added t2 (Backend.run B uid removed added t1 rs).
Proof. unfold Backend.run. apply fold_left_app. Qed.

Lemma find_none_count (uid : string) (rs : list Reaction.t) :
  List.find (Backend.by_user uid) rs = None -> Backend.count_by uid rs = 0.
Proof.
  unfold Backend.count_by. induction rs as [|r rs IH]; simpl.
  - reflexivity.
  - destruct (Backend.by_user uid r); [discriminate | exact IH].
Qed.

Lemma userReaction_none_count (u : AuthUser.t) (product : Product.t) :
  ProductCard.userReaction (Some u) product = None ->
  Backend.count_by (AuthUser.id u) (default [] (Product.reactions product)) = 0.
Proof.
  unfold ProductCard.userReaction.
  destruct (Product.reactions product) as [rs |]; simpl.
  - apply find_none_count.
  - reflexivity.
Qed.

Section ReactionServer.

Variable B : Backend.t.

(** [DELETE .../reactions] leaves no reaction of the caller. *)
Hypothesis remove_clears :
  forall (uid : string) (rs : list Reaction.t),
    Backend.count_by uid (Backend.remove B uid rs) = 0.

(** [POST .../reactions] adds at most one reaction of the caller. *)
Hypothesis add_at_most_one :
  forall (uid emoji : string) (rs : list Reaction.t),
    Backend.count_by uid (Backend.add B uid emoji rs) <= S (Backend.count_by uid rs).

Lemma run_add_step (uid : string) (sock : SocketService.t) (product : Product.t)
    (ur : option Reaction.t) (emoji : string)
    (removed : outcome unit) (added : outcome Reaction.t) (rs : list Reaction.t) :
  Backend.count_by uid
    (Backend.run B uid removed added
       (ProductCard.add_step sock product ur emoji added) rs)
  <= S (Backend.count_by uid rs).
Proof.
  unfold ProductCard.add_step.
  destruct (ProductCard.wants_add ur emoji); [| simpl; lia].
  destruct added as [data | e].
  - unfold SocketService.emitReactionAdded.
    change (Backend.run B uid removed (Resolved data) (Rest ?c :: ?t) rs)
      with (Backend.run B uid removed (Resolved data) t (Backend.add B uid emoji rs)).
    rewrite run_emit. apply add_at_most_one.
  - simpl. lia.
Qed.

(** C5, as the code has it: [handleReaction] works from the reactions
    of the [product] prop.  When the prop holds a reaction of the user
    it requests [removeReaction] first, and it requests [addReaction]
    only when the prop held none or the emoji differs, so the same
    emoji toggles the reaction off and another one replaces it; a
    rejected [removeReaction] ends the handler without any
    [addReaction].  With a backend whose delete request leaves no
    reaction of the caller and whose post request adds at most one,
    and the prop being the list the backend holds, the product has at
    most one reaction of the user once [handleReaction] is over
    whenever the delete request, if issued, was fulfilled, and never
    more than before (or one) otherwise. *)
Theorem handleReaction_at_most_one
    (sock : SocketService.t) (u : AuthUser.t) (product : Product.t)
    (emoji : string) (removed : outcome unit) (added : outcome Reaction.t) :
  let rs := default [] (Product.reactions product) in
  let after (rm : outcome unit) :=
    Backend.run B (AuthUser.id u) rm added
      (ProductCard.handleReaction sock (Some u) product emoji rm added) rs in
  Backend.count_by (AuthUser.id u) (after (Resolved tt)) <= 1 /\
  Backend.count_by (AuthUser.id u) (after removed)
  <= Nat.max 1 (Backend.count_by (AuthUser.id u) rs) /\
  (forall data : Reaction.t,
      requests
        (ProductCard.handleReaction sock (Some u) product emoji (Resolved tt) (Resolved data))
      = match ProductCard.userReaction (Some u) product with
        | Some r =>
            ProductsRemoveReaction (Product._id product)
              :: (if String.eqb (Reaction.emoji r) emoji then []
                  else [ProductsAddReaction (Product._id product) emoji])
        | None => [ProductsAddReaction (Product._id product) emoji]
        end) /\
  (forall e : JsError.t,
      ProductCard.userReaction (Some u) product <> None ->
      requests
        (ProductCard.handleReaction sock (Some u) product emoji (Rejected e) added)
      = [ProductsRemoveReaction (Product._id product)]).
Proof.
  cbn zeta. unfold ProductCard.handleReaction.
  pose proof (userReaction_none_count u product) as Hnone.
  destruct (ProductCard.userReaction (Some u) product) as [r |] eqn:Hur.
  - assert (Hok : forall rs0 : list Reaction.t,
               Backend.count_by (AuthUser.id u)
                 (Backend.run B (AuthUser.id u) (Resolved tt) added
                    (Rest (ProductsRemoveReaction (Product._id product))
                       :: SocketService.emitReactionAdded sock
                            (ReactionRemovePayload (Product.wishlist product)
                               (Product._id product) (AuthUser.id u))
                       ++ ProductCard.add_step sock product (Some r) emoji added) rs0)
               <= 1).
    { intros rs0.
      change (Backend.run B ?uid (Resolved tt) added (Rest ?c :: ?t) rs0)
        with (Backend.run B uid (Resolved tt) added t (Backend.remove B uid rs0)).
      rewrite run_app. unfold SocketService.emitReactionAdded. rewrite run_emit.
      etransitivity; [apply run_add_step |]. rewrite remove_clears. lia. }
    split; [apply Hok |]. split.
    + destruct removed as [[] | e].
      * etransitivity; [apply Hok | lia].
      * simpl. lia.
    + split; [| intros e _; reflexivity].
      intros data. unfold ProductCard.add_step, ProductCard.wants_add.
      unfold SocketService.emitReactionAdded, SocketService.emit.
      destruct (SocketService.socket sock && SocketService.isConnected sock);
        destruct (String.eqb (Reaction.emoji r) emoji); reflexivity.
  - specialize (Hnone eq_refl).
    assert (Hok : forall rm : outcome unit,
               Backend.count_by (AuthUser.id u)
                 (Backend.run B (AuthUser.id u) rm added
                    (ProductCard.add_step sock product None emoji added)
                    (default [] (Product.reactions product)))
               <= 1).
    { intros rm. etransitivity; [apply run_add_step |]. rewrite Hnone. lia. }
    split; [apply Hok |]. split.
    + etransitivity; [apply Hok | lia].
    + split; [| intros e H; contradiction].
      intros data. unfold ProductCard.add_step, ProductCard.wants_add.
      unfold SocketService.emitReactionAdded, SocketService.emit.
      destruct (SocketService.socket sock && SocketService.isConnected sock);
        reflexivity.
Qed.

End ReactionServer.

Lemma simple_remove_clears (uid : string) (rs : list Reaction.t) :
  Backend.count_by uid (Backend.remove Backend.simple uid rs) = 0.
Proof.
  unfold Backend.count_by. simpl. induction rs as [|r rs IH]; simpl.
  - reflexivity.
  - destruct (Backend.by_user uid r) eqn:E; simpl.
    + exact IH.
    + rewrite E. exact IH.
Qed.

Lemma simple_add_at_most_one (uid emoji : string) (rs : list Reaction.t) :
  Backend.count_by uid (Backend.add Backend.simple uid emoji rs)
  <= S (Backend.count_by uid rs).
Proof.
  unfold Backend.count_by. simpl.
  rewrite List.filter_app, List.length_app. simpl.
  destruct (Backend.by_user uid _); simpl; lia.
Qed.

Lemma handleReaction_at_most_one_witness :
  Backend.count_by "u1"
    (Backend.run Backend.simple "u1" (Resolved tt) (Resolved Sample.heart_by_ann)
       (ProductCard.handleReaction Sample.connected (Some Sample.ann)
          Sample.liked_lamp "star" (Resolved tt) (Resolved Sample.heart_by_ann))
       [Sample.fire_by_bob; Sample.heart_by_ann])
  <= 1.
Proof.
  apply (handleReaction_at_most_one Backend.simple
           simple_remove_clears simple_add_at_most_one
           Sample.connected Sample.ann Sample.liked_lamp "star"
           (Resolved tt) (Resolved Sample.heart_by_ann)).
Defined.

(** The three cases on the sample card: same emoji, another emoji, and
    a user without reaction. *)
Lemma handleReaction_examples :
  requests
    (ProductCard.handleReaction Sample.connected (Some Sample.ann)
       Sample.liked_lamp "heart" (Resolved tt) (Resolved Sample.heart_by_ann))
  = [ProductsRemoveReaction "p1"] /\
  requests
    (ProductCard.handleReaction Sample.connected (Some Sample.ann)
       Sample.liked_lamp "star" (Resolved tt) (Resolved Sample.heart_by_ann))
  = [ProductsRemoveReaction "p1"; ProductsAddReaction "p1" "star"] /\
  requests
    (ProductCard.handleReaction Sample.connected (Some (AuthUser.mk "u3"))
       Sample.liked_lamp "star" (Resolved tt) (Resolved Sample.heart_by_ann))
  = [ProductsAddReaction "p1" "star"].
Proof. repeat split. Qed.

(** C5 as stated fails.  On a product that holds two reactions of the
    user, a rejected delete request leaves both.  And the card never
    refreshes its [product] prop: a user without reaction who chooses
    the same emoji twice sends two post requests and no delete, which
    a backend that appends what is posted answers with two reactions
    of that user. *)
Lemma handleReaction_counterexample :
  Backend.count_by "u1"
    (Backend.run Backend.simple "u1" (Rejected Sample.bare_500)
       (Resolved (Reaction.mk (ReactionUser.mk "u1") "star"))
       (ProductCard.handleReaction Sample.connected (Some Sample.ann)
          (Product.mk "p1" "w1" "Lamp"
             (Some [Sample.heart_by_ann; Reaction.mk (ReactionUser.mk "u1") "fire"]))
          "star" (Rejected Sample.bare_500)
          (Resolved (Reaction.mk (ReactionUser.mk "u1") "star")))
       [Sample.heart_by_ann; Reaction.mk (ReactionUser.mk "u1") "fire"])
  = 2 /\
  requests
    (ProductCard.handleReaction Sample.connected (Some (AuthUser.mk "u3"))
       Sample.liked_lamp "star" (Resolved tt)
       (Resolved (Reaction.mk (ReactionUser.mk "u3") "star"))
     ++ ProductCard.handleReaction Sample.connected (Some (AuthUser.mk "u3"))
          Sample.liked_lamp "star" (Resolved tt)
          (Resolved (Reaction.mk (ReactionUser.mk "u3") "star")))%list
  = [ProductsAddReaction "p1" "star"; ProductsAddReaction "p1" "star"] /\
  Backend.count_by "u3"
    (Backend.run Backend.simple "u3" (Resolved tt)
       (Resolved (Reaction.mk (ReactionUser.mk "u3") "star"))
       (ProductCard.handleReaction Sample.connected (Some (AuthUser.mk "u3"))
          Sample.liked_lamp "star" (Resolved tt)
          (Resolved (Reaction.mk (ReactionUser.mk "u3") "star")))
       (Backend.run Backend.simple "u3" (Resolved tt)
          (Resolved (Reaction.mk (ReactionUser.mk "u3") "star"))
          (ProductCard.handleReaction Sample.connected (Some (AuthUser.mk "u3"))
             Sample.liked_lamp "star" (Resolved tt)
             (Resolved (Reaction.mk (ReactionUser.mk "u3") "star")))
          [Sample.fire_by_bob; Sample.heart_by_ann]))
  = 2.
Proof. repeat split. Qed.

(** * Further properties of the code *)

(** ** The product list under socket messages *)

Lemma filter_id_twice (pid : string) (l : list Product.t) :
  List.filter (fun p => negb (String.eqb (Product._id p) pid))
    (List.filter (fun p => negb (String.eqb (Product._id p) pid)) l)
  = List.filter (fun p => negb (String.eqb (Product._id p) pid)) l.
Proof.
  induction l as [|p l IH]; simpl; [reflexivity |].
  destruct (negb (String.eqb (Product._id p) pid)) eqn:E; simpl.
  - rewrite E. now f_equal.
  - exact IH.
Qed.

Lemma map_replace_twice (q : Product.t) (l : list Product.t) :
  let f := fun p : Product.t =>
             if String.eqb (Product._id p) (Product._id q) then q else p in
  map f (map f l) = map f l.
Proof.
  intros f. rewrite List.map_map. apply List.map_ext. intros p. unfold f.
  destruct (String.eqb (Product._id p) (Product._id q)) eqn:E.
  - now rewrite String.eqb_refl.
  - now rewrite E.
Qed.

Lemma filter_id_absent (pid : string) (l : list Product.t) :
  (forall p : Product.t, In p l -> Product._id p <> pid) ->
  List.filter (fun p => negb (String.eqb (Product._id p) pid)) l = l.
Proof.
  induction l as [|p l IH]; intros H; simpl; [reflexivity |].
  destruct (String.eqb_spec (Product._id p) pid) as [He | Hne]; simpl.
  - exfalso. apply (H p); [now left | exact He].
  - f_equal. apply IH. intros p' Hin. apply H. now right.
Qed.

Lemma map_replace_absent (q : Product.t) (l : list Product.t) :
  (forall p : Product.t, In p l -> Product._id p <> Product._id q) ->
  map (fun p => if String.eqb (Product._id p) (Product._id q) then q else p) l = l.
Proof.
  induction l as [|p l IH]; intros H; simpl; [reflexivity |].
  destruct (String.eqb_spec (Product._id p) (Product._id q)) as [He | Hne].
  - exfalso. apply (H p); [now left | exact He].
  - f_equal. apply IH. intros p' Hin. apply H. now right.
Qed.

(** X1: applying the same [product-updated] or [product-deleted]
    message a second time changes nothing, whereas every
    [product-added] message for the page's wishlist lengthens the list
    by one: a duplicated add shows the product twice. *)
Theorem repeated_messages (id : string) (st : WishlistDetail.state) :
  (forall d : ProductEvent.t,
      WishlistDetail.receive id (WishlistDetail.ProductUpdated d)
        (WishlistDetail.receive id (WishlistDetail.ProductUpdated d) st)
      = WishlistDetail.receive id (WishlistDetail.ProductUpdated d) st) /\
  (forall d : ProductDeletedEvent.t,
      WishlistDetail.receive id (WishlistDetail.ProductDeleted d)
        (WishlistDetail.receive id (WishlistDetail.ProductDeleted d) st)
      = WishlistDetail.receive id (WishlistDetail.ProductDeleted d) st) /\
  (forall p : Product.t,
      WishlistDetail.products
        (WishlistDetail.receive id (WishlistDetail.ProductAdded (ProductEvent.mk id p))
           (WishlistDetail.receive id (WishlistDetail.ProductAdded (ProductEvent.mk id p)) st))
      = p :: p :: WishlistDetail.products st).
Proof.
  split; [| split].
  - intros d. simpl. unfold WishlistDetail.handleProductUpdated.
    destruct (String.eqb (ProductEvent.wishlistId d) id); [| reflexivity].
    unfold WishlistDetail.setProducts. simpl. f_equal. apply map_replace_twice.
  - intros d. simpl. unfold WishlistDetail.handleProductDeleted.
    destruct (String.eqb (ProductDeletedEvent.wishlistId d) id); [| reflexivity].
    unfold WishlistDetail.setProducts. simpl. f_equal. apply filter_id_twice.
  - intros p. simpl. unfold WishlistDetail.handleProductAdded. simpl.
    rewrite String.eqb_refl. reflexivity.
Qed.

(** X2: a [product-updated] or [product-deleted] message about an
    [_id] that no product of the list has leaves the page state
    unchanged; an update never inserts. *)
Theorem unknown_id_is_ignored (id : string) (st : WishlistDetail.state) :
  (forall d : ProductEvent.t,
      (forall p : Product.t,
          In p (WishlistDetail.products st) ->
          Product._id p <> Product._id (ProductEvent.product d)) ->
      WishlistDetail.receive id (WishlistDetail.ProductUpdated d) st = st) /\
  (forall d : ProductDeletedEvent.t,
      (forall p : Product.t,
          In p (WishlistDetail.products st) ->
          Product._id p <> ProductDeletedEvent.productId d) ->
      WishlistDetail.receive id (WishlistDetail.ProductDeleted d) st = st).
Proof.
  destruct st as [ps open]. split.
  - intros d H. simpl. unfold WishlistDetail.handleProductUpdated.
    destruct (String.eqb (ProductEvent.wishlistId d) id); [| reflexivity].
    unfold WishlistDetail.setProducts. simpl. f_equal. now apply map_replace_absent.
  - intros d H. simpl. unfold WishlistDetail.handleProductDeleted.
    destruct (String.eqb (ProductDeletedEvent.wishlistId d) id); [| reflexivity].
    unfold WishlistDetail.setProducts. simpl. f_equal. now apply filter_id_absent.
Qed.

Lemma unknown_id_is_ignored_witness :
  WishlistDetail.receive "w1"
    (WishlistDetail.ProductUpdated (ProductEvent.mk "w1" Sample.chair)) Sample.page
  = Sample.page.
Proof.
  apply (proj1 (unknown_id_is_ignored "w1" Sample.page)).
  intros p [<- | [<- | []]]; discriminate.
Defined.

(** X3: adding a product whose [_id] is new to the list and then
    deleting that [_id] gives back the list as it was. *)
Theorem add_then_delete (id : string) (p : Product.t) (st : WishlistDetail.state) :
  (forall p' : Product.t,
      In p' (WishlistDetail.products st) -> Product._id p' <> Product._id p) ->
  WishlistDetail.products
    (WishlistDetail.receive id
       (WishlistDetail.ProductDeleted (ProductDeletedEvent.mk id (Product._id p)))
       (WishlistDetail.receive id
          (WishlistDetail.ProductAdded (ProductEvent.mk id p)) st))
  = WishlistDetail.products st.
Proof.
  intros H. simpl.
  unfold WishlistDetail.handleProductDeleted, WishlistDetail.handleProductAdded. simpl.
  rewrite String.eqb_refl. simpl. rewrite String.eqb_refl. simpl.
  now apply filter_id_absent.
Qed.

Lemma add_then_delete_witness :
  WishlistDetail.products
    (WishlistDetail.receive "w1"
       (WishlistDetail.ProductDeleted (ProductDeletedEvent.mk "w1" "p3"))
       (WishlistDetail.receive "w1"
          (WishlistDetail.ProductAdded (ProductEvent.mk "w1" Sample.chair)) Sample.page))
  = [Sample.lamp; Sample.desk].
Proof.
  apply (add_then_delete "w1" Sample.chair Sample.page).
  intros p [<- | [<- | []]]; discriminate.
Defined.

Lemma filter_id_comm (a b : string) (l : list Product.t) :
  List.filter (fun p => negb (String.eqb (Product._id p) a))
    (List.filter (fun p => negb (String.eqb (Product._id p) b)) l)
  = List.filter (fun p => negb (String.eqb (Product._id p) b))
      (List.filter (fun p => negb (String.eqb (Product._id p) a)) l).
Proof.
  induction l as [|p l IH]; simpl; [reflexivity |].
  destruct (negb (String.eqb (Product._id p) a)) eqn:Ea;
    destruct (negb (String.eqb (Product._id p) b)) eqn:Eb; simpl;
    rewrite ?Ea, ?Eb; rewrite ?IH; reflexivity.
Qed.

(** X4: local deletions ([onDelete]) commute, after both no product
    with either [_id] is left, and the [product-deleted] message of the
    same product, delivered to the page afterwards, changes nothing. *)
Theorem local_deletes (id a b : string) (st : WishlistDetail.state) :
  WishlistDetail.handleDeleteProduct a (WishlistDetail.handleDeleteProduct b st)
  = WishlistDetail.handleDeleteProduct b (WishlistDetail.handleDeleteProduct a st) /\
  (forall p : Product.t,
      In p (WishlistDetail.products
              (WishlistDetail.handleDeleteProduct a (WishlistDetail.handleDeleteProduct b st))) <->
      Product._id p <> a /\ Product._id p <> b /\ In p (WishlistDetail.products st)) /\
  (forall wid : string,
      WishlistDetail.receive id
        (WishlistDetail.ProductDeleted (ProductDeletedEvent.mk wid a))
        (WishlistDetail.handleDeleteProduct a st)
      = WishlistDetail.handleDeleteProduct a st).
Proof.
  split; [| split].
  - unfold WishlistDetail.handleDeleteProduct, WishlistDetail.setProducts. simpl.
    f_equal. apply filter_id_comm.
  - intros p. unfold WishlistDetail.handleDeleteProduct, WishlistDetail.setProducts. simpl.
    rewrite !List.filter_In, !negb_true_iff, !String.eqb_neq. tauto.
  - intros wid. simpl. unfold WishlistDetail.handleProductDeleted. simpl.
    destruct (String.eqb wid id); [| reflexivity].
    unfold WishlistDetail.handleDeleteProduct, WishlistDetail.setProducts. simpl.
    f_equal. apply filter_id_twice.
Qed.

(** X5: when the socket is connected, the message a fulfilled create
    sends is the one that, delivered to a page showing the same
    wishlist, prepends the created product; delivered back to the page
    that created it, it shows the product twice. *)
Theorem create_message_round_trip (id : string) (sock : SocketService.t)
    (pd : ProductData.t) (p : Product.t) (st other : WishlistDetail.state) :
  SocketService.socket sock = true ->
  SocketService.isConnected sock = true ->
  exists d : ProductEvent.t,
    emitted (snd (fst (WishlistDetail.handleAddProduct id sock (Resolved p) pd st)))
    = [("product-added", ProductPayload d)] /\
    WishlistDetail.products
      (WishlistDetail.receive id (WishlistDetail.ProductAdded d) other)
    = p :: WishlistDetail.products other /\
    WishlistDetail.products
      (WishlistDetail.receive id (WishlistDetail.ProductAdded d)
         (fst (fst (WishlistDetail.handleAddProduct id sock (Resolved p) pd st))))
    = p :: p :: WishlistDetail.products st.
Proof.
  intros Hs Hc. exists (ProductEvent.mk id p). simpl.
  unfold SocketService.emitProductAdded.
  rewrite (emit_connected _ _ _ Hs Hc). simpl.
  unfold WishlistDetail.handleProductAdded. simpl. rewrite String.eqb_refl.
  repeat split.
Qed.

Lemma create_message_round_trip_witness :
  exists d : ProductEvent.t,
    emitted (snd (fst (WishlistDetail.handleAddProduct "w1" Sample.connected
                         (Resolved Sample.chair) Sample.productData Sample.page)))
    = [("product-added", ProductPayload d)] /\
    WishlistDetail.products
      (WishlistDetail.receive "w1" (WishlistDetail.ProductAdded d) Sample.page)
    = Sample.chair :: WishlistDetail.products Sample.page /\
    WishlistDetail.products
      (WishlistDetail.receive "w1" (WishlistDetail.ProductAdded d)
         (fst (fst (WishlistDetail.handleAddProduct "w1" Sample.connected
                      (Resolved Sample.chair) Sample.productData Sample.page))))
    = Sample.chair :: Sample.chair :: WishlistDetail.products Sample.page.
Proof.
  apply (create_message_round_trip "w1" Sample.connected Sample.productData
           Sample.chair Sample.page Sample.page); reflexivity.
Defined.

(** ** The room of the page *)

(** X6: on mount the page sends [join-wishlist] only if the socket
    service was already connected before: [connect()] does not set
    [isConnected], so with a new service nothing is sent, and the
    listener of ['connect'] sends nothing later either; the socket
    exists afterwards in every case. *)
Theorem mount_joins_only_if_connected (id : string) (s : SocketService.t) :
  SocketService.socket (fst (WishlistDetailEffect.mount id s)) = true /\
  SocketService.isConnected (fst (WishlistDetailEffect.mount id s))
  = SocketService.isConnected s /\
  snd (WishlistDetailEffect.mount id s)
  = (if SocketService.isConnected s then [Emit "join-wishlist" (RoomId id)] else []) /\
  snd (WishlistDetailEffect.mount id SocketService.initial) = [] /\
  WishlistDetailEffect.unmount id
    (SocketService.on_connect (fst (WishlistDetailEffect.mount id SocketService.initial)))
  = [Emit "leave-wishlist" (RoomId id)].
Proof.
  split; [reflexivity |]. split; [reflexivity |]. split; [| split; reflexivity].
  simpl. unfold SocketService.joinWishlist, SocketService.emit. simpl.
  destruct (SocketService.isConnected s); reflexivity.
Qed.

(** ** The bearer token *)

(** X7: the request interceptor sets [Authorization] to [Bearer]
    followed by the stored token exactly when a non-empty token is
    stored, never touches another header, and leaves the
    configuration as it is when there is no token. *)
Theorem request_carries_token (b : Api.browser) (c : ApiRequest.config) :
  (forall token : string,
      Api.localStorage b !! "token" = Some token -> token <> "" ->
      ApiRequest.headers (ApiRequest.on_request b c) !! "Authorization"
      = Some ("Bearer " +:+ token)) /\
  (Api.localStorage b !! "token" = None \/ Api.localStorage b !! "token" = Some "" ->
   ApiRequest.on_request b c = c) /\
  (forall k : string,
      k <> "Authorization" ->
      ApiRequest.headers (ApiRequest.on_request b c) !! k = ApiRequest.headers c !! k).
Proof.
  unfold ApiRequest.on_request. split; [| split].
  - intros token -> Hne. apply str_truthy_true in Hne. rewrite Hne. simpl.
    apply lookup_insert_eq.
  - intros [-> | ->]; reflexivity.
  - intros k Hk. destruct (Api.localStorage b !! "token") as [token |]; [| reflexivity].
    destruct (Js.str_truthy token); [| reflexivity].
    simpl. now apply lookup_insert_ne.
Qed.

Lemma request_carries_token_witness :
  ApiRequest.headers
    (ApiRequest.on_request (Api.mkBrowser Sample.storage "/dashboard")
       (ApiRequest.mkConfig (<["Content-Type" := "application/json"]> ∅)))
    !! "Authorization"
  = Some "Bearer abc".
Proof.
  apply (proj1 (request_carries_token (Api.mkBrowser Sample.storage "/dashboard")
                  (ApiRequest.mkConfig (<["Content-Type" := "application/json"]> ∅)))).
  - reflexivity.
  - discriminate.
Defined.

(** X8: once a 401 response has gone through the response
    interceptor, the request interceptor adds no credentials: the next
    request leaves with the configuration it was given. *)
Theorem no_token_after_401 (error : JsError.t) (b : Api.browser) (c : ApiRequest.config) :
  JsError.status error = Some 401%Z ->
  ApiRequest.on_request (fst (Api.on_response_error error b)) c = c.
Proof.
  intros H. unfold Api.on_response_error. rewrite H. simpl.
  unfold ApiRequest.on_request. simpl.
  rewrite lookup_delete_ne by discriminate. now rewrite lookup_delete_eq.
Qed.

Lemma no_token_after_401_witness :
  ApiRequest.on_request
    (fst (Api.on_response_error Sample.unauthorized
            (Api.mkBrowser Sample.storage "/dashboard")))
    (ApiRequest.mkConfig ∅)
  = ApiRequest.mkConfig ∅.
Proof.
  apply (no_token_after_401 Sample.unauthorized
           (Api.mkBrowser Sample.storage "/dashboard") (ApiRequest.mkConfig ∅)).
  reflexivity.
Defined.

(** ** Submitting the add-product form *)




(** ** Trimmed input *)

Lemma trim_end_cons (c : ascii) (s : string) :
  Js.trim_end (String c s)
  = match Js.trim_end s with
    | EmptyString => if Js.is_space c then EmptyString else String c EmptyString
    | t => String c t
    end.
Proof. reflexivity. Qed.

Lemma trim_end_idem (s : string) : Js.trim_end (Js.trim_end s) = Js.trim_end s.
Proof.
  induction s as [|c s IH]; [reflexivity |].
  rewrite (trim_end_cons c s). destruct (Js.trim_end s) as [|d t] eqn:E.
  - destruct (Js.is_space c) eqn:Hc; [reflexivity |].
    rewrite trim_end_cons. simpl. now rewrite Hc.
  - rewrite trim_end_cons. now rewrite IH.
Qed.

Lemma trim_start_head (s : string) :
  Js.trim_start s = "" \/
  exists (c : ascii) (r : string), Js.trim_start s = String c r /\ Js.is_space c = false.
Proof.
  induction s as [|c s IH]; simpl; [now left |].
  destruct (Js.is_space c) eqn:Hc; [exact IH |].
  right. exists c, s. now split.
Qed.

Lemma trim_end_head (c : ascii) (s : string) :
  Js.is_space c = false -> exists r : string, Js.trim_end (String c s) = String c r.
Proof.
  intros Hc. cbn [Js.trim_end]. rewrite Hc.
  destruct (Js.trim_end s); eexists; reflexivity.
Qed.

Lemma trim_idem (s : string) : Js.trim (Js.trim s) = Js.trim s.
Proof.
  unfold Js.trim. destruct (trim_start_head s) as [-> | (c & r & -> & Hc)].
  - reflexivity.
  - destruct (trim_end_head c r Hc) as [r' Hr]. rewrite Hr.
    cbn [Js.trim_start]. rewrite Hc. rewrite <- Hr. apply trim_end_idem.
Qed.

(** X11: whatever is typed in the join modal, at most one request is
    made per submission, and the invite code it carries is the typed
    text without surrounding white space: it is not empty, and trimming
    it again changes nothing. *)
Theorem join_sends_trimmed_code (response : outcome Wishlist.t)
    (st : JoinWishlistModal.state) :
  length (requests (snd (JoinWishlistModal.handleSubmit response st))) <= 1 /\
  (forall c : string,
      In (WishlistsJoinByInvite c)
        (requests (snd (JoinWishlistModal.handleSubmit response st))) ->
      c = Js.trim (JoinWishlistModal.inviteCode st) /\ c <> "" /\ Js.trim c = c) /\
  (Js.trim (JoinWishlistModal.inviteCode st) = "" ->
   JoinWishlistModal.handleSubmit response st = (st, [])).
Proof.
  unfold JoinWishlistModal.handleSubmit.
  destruct (Js.str_truthy (Js.trim (JoinWishlistModal.inviteCode st))) eqn:Ht; cbn [negb].
  - apply str_truthy_true in Ht. split; [| split].
    + destruct response; simpl; lia.
    + intros c Hin.
      assert (c = Js.trim (JoinWishlistModal.inviteCode st)) as ->.
      { destruct response; simpl in Hin; destruct Hin as [H | []]; congruence. }
      split; [reflexivity |]. split; [exact Ht | apply trim_idem].
    + intros H. contradiction.
  - split; [simpl; lia |]. split; [intros c [] |]. reflexivity.
Qed.

(** ** Comments *)

(** X12: a blank comment is not sent; otherwise exactly one request is
    made, with the text as typed (not trimmed); the draft is cleared
    only when the request was fulfilled and is kept when it was
    rejected, and the submitting flag is off afterwards. *)
Theorem comment_draft_survives_failure (sock : SocketService.t) (product : Product.t)
    (response : outcome Comment.t) (st : Comments.state) :
  (Js.trim (Comments.newComment st) = "" ->
   Comments.handleComment sock product response st = (st, [])) /\
  (Js.trim (Comments.newComment st) <> "" ->
   head (snd (Comments.handleComment sock product response st))
   = Some (Comments.AddComment (Product._id product) (Comments.newComment st)) /\
   Comments.isSubmittingComment (fst (Comments.handleComment sock product response st))
   = false /\
   Comments.newComment (fst (Comments.handleComment sock product response st))
   = match response with
     | Resolved _ => ""
     | Rejected _ => Comments.newComment st
     end /\
   forall a : Comments.act,
     In a (tail (snd (Comments.handleComment sock product response st))) ->
     exists d : Comment.t,
       response = Resolved d /\
       SocketService.isConnected sock = true /\
       a = Comments.EmitCommentAdded (Product.wishlist product) (Product._id product) d).
Proof.
  unfold Comments.handleComment. split.
  - intros H. apply str_truthy_false in H. now rewrite H.
  - intros H. apply str_truthy_true in H. rewrite H. cbn [negb].
    destruct response as [d | e]; simpl.
    + repeat split. intros a. unfold Comments.emitCommentAdded.
      destruct (SocketService.socket sock); simpl; [| intros []].
      destruct (SocketService.isConnected sock); simpl; [| intros []].
      intros [<- | []]. exists d. repeat split.
    + repeat split. intros a [].
Qed.

Lemma comment_draft_survives_failure_witness :
  Comments.newComment
    (fst (Comments.handleComment Sample.connected Sample.lamp
            (Rejected Sample.bare_500) (Comments.mkState " nice one " false)))
  = " nice one ".
Proof.
  pose proof (comment_draft_survives_failure Sample.connected Sample.lamp
                (Rejected Sample.bare_500) (Comments.mkState " nice one " false))
    as [_ H].
  assert (Hne : Js.trim " nice one " <> "") by (vm_compute; discriminate).
  destruct (H Hne) as (_ & _ & Hdraft & _). exact Hdraft.
Defined.

(** ** Reaction counts *)

Lemma iter_shift (A : Type) (f : A -> A) (n : nat) (x : A) :
  Nat.iter n f (f x) = f (Nat.iter n f x).
Proof. induction n as [|n IH]; simpl; [reflexivity | now rewrite IH]. Qed.

Lemma fold_step_lookup (rs : list Reaction.t) (acc : gmap string ReactionCounts.value)
    (e : string) :
  fold_left ReactionCounts.step rs acc !! e
  = if String.eqb e "__proto__" then acc !! e
    else Nat.iter (ReactionCounts.with_emoji e rs)
           (fun v => Some (ReactionCounts.bump e v)) (acc !! e).
Proof.
  revert acc. unfold ReactionCounts.with_emoji.
  induction rs as [|r rs IH]; intros acc; simpl.
  - destruct (String.eqb e "__proto__"); reflexivity.
  - rewrite IH. unfold ReactionCounts.step.
    destruct (String.eqb e "__proto__") eqn:Hproto.
    + apply String.eqb_eq in Hproto.
      destruct (String.eqb_spec (Reaction.emoji r) "__proto__") as [_ | Hne];
        [reflexivity |].
      rewrite lookup_insert_ne; [reflexivity | congruence].
    + destruct (String.eqb_spec (Reaction.emoji r) e) as [He | Hne].
      * rewrite He, Hproto, lookup_insert_eq. cbn [length].
        rewrite (iter_shift _ (fun v => Some (ReactionCounts.bump e v))).
        reflexivity.
      * destruct (String.eqb (Reaction.emoji r) "__proto__"); [reflexivity |].
        now rewrite lookup_insert_ne.
Qed.

Lemma iter_bump_none (e : string) (n : nat) :
  Nat.iter n (fun v => Some (ReactionCounts.bump e v)) None
  = match n with
    | O => None
    | S _ =>
        Some (if ReactionCounts.inherits e
              then ReactionCounts.NativeText e n else ReactionCounts.Count n)
    end.
Proof.
  induction n as [|n IH]; [reflexivity |].
  rewrite Nat.iter_succ, IH. destruct n as [|n].
  - reflexivity.
  - unfold ReactionCounts.bump.
    destruct (ReactionCounts.inherits e); do 2 f_equal; lia.
Qed.

Lemma reaction_counts_lookup (product : Product.t) (e : string) :
  ReactionCounts.reactionCounts product !! e
  = (let n := ReactionCounts.with_emoji e (default [] (Product.reactions product)) in
     if Nat.eqb n 0 then None
     else if String.eqb e "__proto__" then None
     else if ReactionCounts.inherits e
          then Some (ReactionCounts.NativeText e n)
          else Some (ReactionCounts.Count n)).
Proof.
  unfold ReactionCounts.reactionCounts. cbn zeta.
  destruct (Product.reactions product) as [rs |];
    [| rewrite lookup_empty; reflexivity].
  change (default [] (Some rs)) with rs.
  rewrite fold_step_lookup, lookup_empty, iter_bump_none.
  destruct (ReactionCounts.with_emoji e rs) as [|n]; cbn [Nat.eqb].
  - destruct (String.eqb e "__proto__"); reflexivity.
  - destruct (String.eqb e "__proto__"); [reflexivity |].
    destruct (ReactionCounts.inherits e); reflexivity.
Qed.

(** X13: [reactionCounts] has no entry for an emoji that no reaction of
    the product carries and is empty without a reaction list.  An
    emoji that is not the name of a property of [Object.prototype] is
    mapped to the number of reactions that carry it.  The accumulator
    being a plain object, an emoji named like an inherited method
    ([constructor], [toString], ...) is mapped to a text, not a number,
    and [__proto__] never gets an entry. *)
Theorem reaction_counts_count (product : Product.t) (e : string) :
  let n := ReactionCounts.with_emoji e (default [] (Product.reactions product)) in
  (n = 0 -> ReactionCounts.reactionCounts product !! e = None) /\
  (0 < n -> e <> "__proto__" -> ReactionCounts.inherits e = false ->
   ReactionCounts.reactionCounts product !! e = Some (ReactionCounts.Count n)) /\
  (0 < n -> ReactionCounts.inherits e = true ->
   ReactionCounts.reactionCounts product !! e = Some (ReactionCounts.NativeText e n)) /\
  (e = "__proto__" -> ReactionCounts.reactionCounts product !! e = None) /\
  (Product.reactions product = None -> ReactionCounts.reactionCounts product = ∅).
Proof.
  cbn zeta. rewrite reaction_counts_lookup. cbn zeta.
  destruct (ReactionCounts.with_emoji e (default [] (Product.reactions product)))
    as [|n]; cbn [Nat.eqb].
  - split; [reflexivity |]. split; [intros Hn; lia |]. split; [intros Hn; lia |].
    split; [reflexivity |].
    intros H. unfold ReactionCounts.reactionCounts. now rewrite H.
  - split; [discriminate |]. split; [| split; [| split]].
    + intros _ Hp Hi. apply String.eqb_neq in Hp. now rewrite Hp, Hi.
    + intros _ Hi.
      destruct (String.eqb_spec e "__proto__") as [Hp | _].
      * rewrite Hp in Hi. discriminate Hi.
      * now rewrite Hi.
    + intros Hp. apply String.eqb_eq in Hp. now rewrite Hp.
    + intros H. unfold ReactionCounts.reactionCounts. now rewrite H.
Qed.

Lemma reaction_counts_count_witness :
  ReactionCounts.reactionCounts Sample.liked_lamp !! "heart"
  = Some (ReactionCounts.Count 1) /\
  ReactionCounts.reactionCounts
    (Product.mk "p1" "w1" "Lamp"
       (Some [Reaction.mk (ReactionUser.mk "u1") "constructor";
              Reaction.mk (ReactionUser.mk "u2") "constructor";
              Reaction.mk (ReactionUser.mk "u3") "__proto__"]))
    !! "constructor"
  = Some (ReactionCounts.NativeText "constructor" 2).
Proof.
  split.
  - apply (proj1 (proj2 (reaction_counts_count Sample.liked_lamp "heart")));
      [vm_compute; lia | discriminate | reflexivity].
  - apply (proj1 (proj2 (proj2 (reaction_counts_count
             (Product.mk "p1" "w1" "Lamp"
                (Some [Reaction.mk (ReactionUser.mk "u1") "constructor";
                       Reaction.mk (ReactionUser.mk "u2") "constructor";
                       Reaction.mk (ReactionUser.mk "u3") "__proto__"]))
             "constructor"))));
      [vm_compute; lia | reflexivity].
Defined.

Lemma find_some_with_emoji (f : Reaction.t -> bool) (rs : list Reaction.t) (r : Reaction.t) :
  List.find f rs = Some r -> 1 <= ReactionCounts.with_emoji (Reaction.emoji r) rs.
Proof.
  intros H. apply List.find_some in H as [Hin _].
  unfold ReactionCounts.with_emoji.
  induction rs as [|r0 rs IH]; [destruct Hin |].
  simpl. destruct Hin as [-> | Hin].
  - rewrite String.eqb_refl. simpl. lia.
  - specialize (IH Hin).
    destruct (String.eqb (Reaction.emoji r0) (Reaction.emoji r)); simpl; lia.
Qed.

(** X14: when the emoji of the reaction the card finds for the current
    user is not the name of a property of [Object.prototype], it is
    among the counted ones, with a count of at least one; when it is
    [__proto__], [reactionCounts] has no entry for it, and when it is
    the name of an inherited method the entry is a text. *)
Theorem user_reaction_is_counted (user : option AuthUser.t) (product : Product.t)
    (r : Reaction.t) :
  ProductCard.userReaction user product = Some r ->
  (Reaction.emoji r <> "__proto__" ->
   ReactionCounts.inherits (Reaction.emoji r) = false ->
   exists n : nat,
     ReactionCounts.reactionCounts product !! Reaction.emoji r
     = Some (ReactionCounts.Count n) /\ 1 <= n) /\
  (Reaction.emoji r = "__proto__" ->
   ReactionCounts.reactionCounts product !! Reaction.emoji r = None) /\
  (ReactionCounts.inherits (Reaction.emoji r) = true ->
   exists n : nat,
     ReactionCounts.reactionCounts product !! Reaction.emoji r
     = Some (ReactionCounts.NativeText (Reaction.emoji r) n) /\ 1 <= n).
Proof.
  intros H. rewrite reaction_counts_lookup. cbn zeta.
  unfold ProductCard.userReaction in H.
  destruct (Product.reactions product) as [rs |]; [| discriminate].
  change (default [] (Some rs)) with rs.
  apply find_some_with_emoji in H.
  destruct (ReactionCounts.with_emoji (Reaction.emoji r) rs) as [|n] eqn:E; [lia |].
  cbn [Nat.eqb]. split; [| split].
  - intros Hp Hi. apply String.eqb_neq in Hp. rewrite Hp, Hi.
    exists (S n). split; [reflexivity | lia].
  - intros ->. reflexivity.
  - intros Hi.
    destruct (String.eqb_spec (Reaction.emoji r) "__proto__") as [Hp | _].
    + rewrite Hp in Hi. discriminate Hi.
    + rewrite Hi. exists (S n). split; [reflexivity | lia].
Qed.

Lemma user_reaction_is_counted_witness :
  exists n : nat,
    ReactionCounts.reactionCounts Sample.liked_lamp !! "heart"
    = Some (ReactionCounts.Count n) /\ 1 <= n.
Proof.
  apply (proj1 (user_reaction_is_counted (Some Sample.ann) Sample.liked_lamp
                  Sample.heart_by_ann eq_refl));
    [discriminate | reflexivity].
Defined.

(** ** [truncateText] and [formatRelativeTime] *)

Lemma length_take (n : nat) (s : string) :
  String.length (JsString.take n s) = Nat.min n (String.length s).
Proof.
  revert s. induction n as [|n IH]; intros [|c s]; simpl; try reflexivity.
  now rewrite IH.
Qed.

Lemma length_app (a b : string) :
  String.length (a +:+ b) = String.length a + String.length b.
Proof. induction a as [|c a IH]; simpl; [reflexivity | now rewrite IH]. Qed.

Lemma take_all (n : nat) (s : string) :
  String.length s <= n -> JsString.take n s = s.
Proof.
  revert s. induction n as [|n IH]; intros [|c s] H; simpl in *; try reflexivity.
  - lia.
  - f_equal. apply IH. lia.
Qed.

Lemma take_app (n : nat) (a b : string) :
  n <= String.length a -> JsString.take n (a +:+ b) = JsString.take n a.
Proof.
  revert a. induction n as [|n IH]; intros a H; [reflexivity |].
  destruct a as [|c a]; simpl in *; [lia |].
  f_equal. apply IH. lia.
Qed.

Lemma slice0_nonneg (s : string) (e : Z) :
  (0 <= e)%Z -> JsString.slice0 s e = JsString.take (Z.to_nat e) s.
Proof.
  intros He. unfold JsString.slice0.
  destruct (Z.ltb_spec e 0) as [Hlt | _]; [lia |].
  destruct (Z.le_ge_cases e (Z.of_nat (String.length s))) as [Hle | Hge].
  - now rewrite Z.min_l.
  - rewrite Z.min_r by exact Hge. rewrite Nat2Z.id.
    rewrite !take_all; [reflexivity | lia | lia].
Qed.

(** X15: for a limit that is not negative, [truncateText] returns a
    text within the limit unchanged, returns otherwise the first
    [maxLength] code units followed by three dots (so never more than
    [maxLength + 3] code units), and truncating its result again with
    the same limit changes nothing. *)
Theorem truncateText_spec (text : string) (maxLength : Z) :
  (0 <= maxLength)%Z ->
  ((Z.of_nat (String.length text) <= maxLength)%Z ->
   Text.truncateText text maxLength = text) /\
  ((maxLength < Z.of_nat (String.length text))%Z ->
   Text.truncateText text maxLength
   = JsString.take (Z.to_nat maxLength) text +:+ "..." /\
   Z.of_nat (String.length (Text.truncateText text maxLength)) = (maxLength + 3)%Z) /\
  Text.truncateText (Text.truncateText text maxLength) maxLength
  = Text.truncateText text maxLength.
Proof.
  intros Hm.
  assert (Hlong : (maxLength < Z.of_nat (String.length text))%Z ->
                  Text.truncateText text maxLength
                  = JsString.take (Z.to_nat maxLength) text +:+ "..." /\
                  Z.of_nat (String.length (Text.truncateText text maxLength))
                  = (maxLength + 3)%Z).
  { intros Hlt. unfold Text.truncateText.
    destruct (Z.leb_spec (Z.of_nat (String.length text)) maxLength) as [Hle | _]; [lia |].
    rewrite slice0_nonneg by exact Hm. split; [reflexivity |].
    rewrite length_app, length_take. simpl. lia. }
  split; [| split; [exact Hlong |]].
  - intros Hle. unfold Text.truncateText.
    destruct (Z.leb_spec (Z.of_nat (String.length text)) maxLength); [reflexivity | lia].
  - destruct (Z.le_gt_cases (Z.of_nat (String.length text)) maxLength) as [Hle | Hgt].
    + unfold Text.truncateText at 2 3.
      destruct (Z.leb_spec (Z.of_nat (String.length text)) maxLength); [| lia].
      unfold Text.truncateText.
      destruct (Z.leb_spec (Z.of_nat (String.length text)) maxLength); [reflexivity | lia].
    + destruct (Hlong Hgt) as [Heq Hlen]. rewrite Heq in *.
      unfold Text.truncateText.
      destruct (Z.leb_spec
                  (Z.of_nat (String.length (JsString.take (Z.to_nat maxLength) text +:+ "...")))
                  maxLength) as [Hle | _]; [lia |].
      rewrite slice0_nonneg by exact Hm.
      rewrite take_app by (rewrite length_take; lia).
      rewrite (take_all _ (JsString.take (Z.to_nat maxLength) text))
        by (rewrite length_take; lia).
      reflexivity.
Qed.

Lemma truncateText_spec_witness :
  Text.truncateText "collaborative" 6 = "collab..." /\
  Text.truncateText (Text.truncateText "collaborative" 6) 6
  = Text.truncateText "collaborative" 6.
Proof.
  assert (H : (0 <= 6)%Z) by lia.
  destruct (truncateText_spec "collaborative" 6 H) as (_ & Hlong & Hidem).
  split; [| exact Hidem].
  apply Hlong. simpl. lia.
Defined.

(** X16: [formatRelativeTime] shows ['just now'] for anything less
    than a minute old, dates in the future included; then whole
    minutes from 1 to 59, whole hours from 1 to 23 and whole days from
    1 to 6, each the elapsed time rounded down; and the formatted date
    from seven days on. *)
Theorem formatRelativeTime_buckets (formatted : string) (now target : Z) :
  let elapsed := (now - target)%Z in
  ((elapsed < 60000)%Z ->
   Text.formatRelativeTime formatted now target = "just now") /\
  ((60000 <= elapsed < 3600000)%Z ->
   Text.formatRelativeTime formatted now target
   = JsString.of_number (elapsed / 60000) +:+ "m ago" /\
   (1 <= elapsed / 60000 <= 59)%Z) /\
  ((3600000 <= elapsed < 86400000)%Z ->
   Text.formatRelativeTime formatted now target
   = JsString.of_number (elapsed / 3600000) +:+ "h ago" /\
   (1 <= elapsed / 3600000 <= 23)%Z) /\
  ((86400000 <= elapsed < 604800000)%Z ->
   Text.formatRelativeTime formatted now target
   = JsString.of_number (elapsed / 86400000) +:+ "d ago" /\
   (1 <= elapsed / 86400000 <= 6)%Z) /\
  ((604800000 <= elapsed)%Z ->
   Text.formatRelativeTime formatted now target = formatted).
Proof.
  cbn zeta. unfold Text.formatRelativeTime. cbn zeta.
  set (d := (now - target)%Z).
  assert (Hm : (d / 1000 / 60 = d / 60000)%Z) by (rewrite Z.div_div by lia; reflexivity).
  assert (Hh : (d / 1000 / 60 / 60 = d / 3600000)%Z)
    by (rewrite !Z.div_div by lia; reflexivity).
  assert (Hd : (d / 1000 / 60 / 60 / 24 = d / 86400000)%Z)
    by (rewrite !Z.div_div by lia; reflexivity).
  rewrite Hd, Hh, Hm.
  assert (Bs : (d / 1000 < 60 <-> d < 60000)%Z)
    by (split; intros; Z.div_mod_to_equations; lia).
  assert (Bm : (d / 60000 < 60 <-> d < 3600000)%Z)
    by (split; intros; Z.div_mod_to_equations; lia).
  assert (Bh : (d / 3600000 < 24 <-> d < 86400000)%Z)
    by (split; intros; Z.div_mod_to_equations; lia).
  assert (Bd : (d / 86400000 < 7 <-> d < 604800000)%Z)
    by (split; intros; Z.div_mod_to_equations; lia).
  destruct (Z.ltb_spec (d / 1000) 60) as [H1 | H1];
    [| destruct (Z.ltb_spec (d / 60000) 60) as [H2 | H2];
       [| destruct (Z.ltb_spec (d / 3600000) 24) as [H3 | H3];
          [| destruct (Z.ltb_spec (d / 86400000) 7) as [H4 | H4]]]].
  all: repeat split; intros; try reflexivity; try (exfalso; lia).
  all: Z.div_mod_to_equations; lia.
Qed.

Lemma formatRelativeTime_buckets_witness :
  Text.formatRelativeTime "Nov 2, 2026" 1793606400000 1793599200000 = "2h ago" /\
  Text.formatRelativeTime "Nov 3, 2026" 1793606400000 1793692800000 = "just now".
Proof.
  pose proof (formatRelativeTime_buckets "Nov 2, 2026" 1793606400000 1793599200000)
    as (_ & _ & Hh & _).
  pose proof (formatRelativeTime_buckets "Nov 3, 2026" 1793606400000 1793692800000)
    as (Hj & _).
  split.
  - apply Hh. lia.
  - apply Hj. lia.
Defined.

(** ** [split] and [join] *)

Lemma str_app_cons (x : ascii) (a b : string) :
  String x a +:+ b = String x (a +:+ b).
Proof. reflexivity. Qed.

Lemma str_app_assoc (a b c : string) : (a +:+ b) +:+ c = a +:+ (b +:+ c).
Proof.
  induction a as [|x a IH]; [reflexivity |].
  rewrite !str_app_cons. f_equal. exact IH.
Qed.

Lemma prefix_app (sep r : string) : String.prefix sep (sep +:+ r) = true.
Proof.
  induction sep as [|a sep IH]; [destruct r; reflexivity |].
  rewrite str_app_cons. simpl.
  destruct (ascii_dec a a); [exact IH | contradiction].
Qed.

Lemma prefix_inv (sep s : string) :
  String.prefix sep s = true -> exists r : string, s = sep +:+ r.
Proof.
  revert s. induction sep as [|a sep IH]; intros s H.
  - exists s. reflexivity.
  - destruct s as [|b s]; [discriminate H |]. simpl in H.
    destruct (ascii_dec a b) as [-> | _]; [| discriminate H].
    destruct (IH s H) as [r ->]. exists r. reflexivity.
Qed.

Lemma split_go_skip (sep t s : string) :
  JsString.split_go sep (t +:+ s) (String.length t) = JsString.split_go sep s 0.
Proof.
  induction t as [|c t IH]; [reflexivity |].
  rewrite str_app_cons. simpl. exact IH.
Qed.

Lemma split_nil (sep : string) : JsString.split sep "" = [""].
Proof. reflexivity. Qed.

Lemma split_sep (a : ascii) (sep r : string) :
  JsString.split (String a sep) (String a sep +:+ r)
  = "" :: JsString.split (String a sep) r.
Proof.
  unfold JsString.split.
  change (String a sep +:+ r) with (String a (sep +:+ r)).
  cbn [JsString.split_go].
  change (String a (sep +:+ r)) with (String a sep +:+ r).
  rewrite prefix_app.
  replace (String.length (String a sep) - 1) with (String.length sep) by (simpl; lia).
  rewrite split_go_skip. reflexivity.
Qed.

Lemma split_char (sep : string) (c : ascii) (s : string) :
  String.prefix sep (String c s) = false ->
  JsString.split sep (String c s)
  = String c (hd "" (JsString.split sep s)) :: tl (JsString.split sep s).
Proof.
  intros H. unfold JsString.split. cbn [JsString.split_go]. rewrite H.
  destruct (JsString.split_go sep s 0) as [cur rest]. reflexivity.
Qed.

Lemma split_cons (sep s : string) :
  JsString.split sep s = hd "" (JsString.split sep s) :: tl (JsString.split sep s).
Proof.
  unfold JsString.split. destruct (JsString.split_go sep s 0). reflexivity.
Qed.

Lemma join_char (sep : string) (c : ascii) (h : string) (t : list string) :
  JsString.join sep (String c h :: t) = String c (JsString.join sep (h :: t)).
Proof. destruct t; reflexivity. Qed.

Lemma join_empty_head (sep : string) (h : string) (t : list string) :
  JsString.join sep ("" :: h :: t) = sep +:+ JsString.join sep (h :: t).
Proof. reflexivity. Qed.

Lemma join_split_bounded (a : ascii) (sep : string) (n : nat) (s : string) :
  String.length s <= n ->
  JsString.join (String a sep) (JsString.split (String a sep) s) = s.
Proof.
  revert s. induction n as [|n IH]; intros s Hlen.
  - destruct s; [reflexivity | simpl in Hlen; lia].
  - destruct s as [|c s]; [reflexivity |].
    destruct (String.prefix (String a sep) (String c s)) eqn:Hp.
    + destruct (prefix_inv _ _ Hp) as [r Hr]. rewrite Hr, split_sep.
      rewrite (split_cons (String a sep) r), join_empty_head, <- split_cons.
      rewrite IH; [reflexivity |].
      apply (f_equal String.length) in Hr. rewrite length_app in Hr.
      simpl in Hr, Hlen. lia.
    + rewrite (split_char _ _ _ Hp), join_char, <- split_cons.
      rewrite IH; [reflexivity | simpl in Hlen; lia].
Qed.

(** Joining the pieces of a split gives the string back. *)
Lemma join_split (sep s : string) :
  sep <> "" -> JsString.join sep (JsString.split sep s) = s.
Proof.
  intros Hne. destruct sep as [|a sep]; [contradiction |].
  now apply (join_split_bounded a sep (String.length s)).
Qed.

(** ** Optimized image URLs *)

(** X17: [getOptimizedImageUrl] returns any URL that is not a
    Cloudinary one unchanged, and in every case either returns its
    argument or inserts the transformation string right after the
    [/upload/] segment, keeping what is before and after it. *)
Theorem optimized_url_structure (url : string) (o : Cloudinary.options) :
  (Cloudinary.isCloudinaryUrl url = false ->
   Cloudinary.getOptimizedImageUrl url o = url) /\
  (Cloudinary.getOptimizedImageUrl url o = url \/
   exists baseUrl path : string,
     url = baseUrl +:+ "/upload/" +:+ path /\
     Cloudinary.getOptimizedImageUrl url o
     = baseUrl +:+ "/upload/" +:+ Cloudinary.transformString o +:+ path).
Proof.
  unfold Cloudinary.getOptimizedImageUrl. split.
  - intros ->. reflexivity.
  - destruct (Cloudinary.isCloudinaryUrl url); [| now left]. cbn [negb].
    pose proof (join_split "/upload/" url) as Hj.
    destruct (JsString.split "/upload/" url) as [|b [|p [|x l]]]; try (now left).
    right. exists b, p. split; [| reflexivity].
    symmetry. apply Hj. discriminate.
Qed.

Lemma optimized_url_example :
  Cloudinary.getOptimizedImageUrl
    "https://res.cloudinary.com/demo/image/upload/v1/lamp.jpg"
    (Cloudinary.mkOptions (Some 400%Z) (Some 300%Z) None None (Some "fill") None)
  = "https://res.cloudinary.com/demo/image/upload/w_400,h_300,c_fill,g_auto/q_auto/f_auto/v1/lamp.jpg"
  /\
  Cloudinary.getProductImageUrl (Some "https://shop.example/lamp.jpg") Cloudinary.no_options
  = Some "https://shop.example/lamp.jpg" /\
  Cloudinary.getProductImageUrl None Cloudinary.no_options = None.
Proof. vm_compute. repeat split. Qed.

(** ** Tags *)

Lemma prefix_comma (c : ascii) (s : string) :
  String.prefix "," (String c s) = Ascii.eqb c ",".
Proof.
  change (String.prefix "," (String c s))
    with (match ascii_dec "," c with
          | left _ => String.prefix "" s
          | right _ => false
          end).
  destruct (ascii_dec "," c) as [<- | Hne].
  - destruct s; reflexivity.
  - symmetry. apply Ascii.eqb_neq. congruence.
Qed.

Lemma includes_comma_cons (c : ascii) (s : string) :
  JsString.includes "," (String c s)
  = Ascii.eqb c "," || JsString.includes "," s.
Proof.
  change (JsString.includes "," (String c s))
    with (String.prefix "," (String c s) || JsString.includes "," s).
  now rewrite prefix_comma.
Qed.

Lemma includes_comma_app (a b : string) :
  JsString.includes "," (a +:+ b)
  = JsString.includes "," a || JsString.includes "," b.
Proof.
  induction a as [|c a IH]; [reflexivity |].
  rewrite str_app_cons, !includes_comma_cons, IH. apply orb_assoc.
Qed.

Lemma split_comma_pieces (s : string) :
  Forall (fun p => JsString.includes "," p = false) (JsString.split "," s).
Proof.
  induction s as [|c s IH]; [repeat constructor |].
  destruct (Ascii.eqb c ",") eqn:Hc.
  - apply Ascii.eqb_eq in Hc. subst c.
    change (String ","%char s) with ("," +:+ s).
    rewrite (split_sep "," "" s). constructor; [reflexivity | exact IH].
  - rewrite split_char by (rewrite prefix_comma; exact Hc).
    rewrite split_cons in IH. inversion IH as [| h t Hh Ht]; subst.
    constructor; [| exact Ht]. rewrite includes_comma_cons, Hc. exact Hh.
Qed.

Lemma trim_start_comma (s : string) :
  JsString.includes "," s = false -> JsString.includes "," (Js.trim_start s) = false.
Proof.
  induction s as [|c s IH]; intros H; [reflexivity |]. simpl.
  destruct (Js.is_space c); [| exact H].
  apply IH. rewrite includes_comma_cons in H. now apply orb_false_iff in H.
Qed.

Lemma trim_end_comma (s : string) :
  JsString.includes "," s = false -> JsString.includes "," (Js.trim_end s) = false.
Proof.
  induction s as [|c s IH]; intros H; [reflexivity |].
  rewrite includes_comma_cons in H. apply orb_false_iff in H as [Hc Hs].
  specialize (IH Hs). rewrite trim_end_cons.
  destruct (Js.trim_end s) as [|d t].
  - destruct (Js.is_space c); [reflexivity |]. rewrite includes_comma_cons, Hc. reflexivity.
  - rewrite includes_comma_cons, Hc. exact IH.
Qed.

(** X18: every tag the forms submit is non-empty, has no white space
    at either end and contains no comma, whatever was typed in the
    tags field. *)
Theorem submitted_tags_are_clean (tags tag : string) :
  In tag (Tags.parse tags) ->
  tag <> "" /\ Js.trim tag = tag /\ JsString.includes "," tag = false.
Proof.
  unfold Tags.parse. intros H.
  apply List.filter_In in H as [Hin Ht].
  apply List.in_map_iff in Hin as (p & <- & Hp).
  split; [now apply str_truthy_true |]. split; [apply trim_idem |].
  pose proof (split_comma_pieces tags) as Hall.
  rewrite List.Forall_forall in Hall. specialize (Hall p Hp).
  unfold Js.trim. now apply trim_end_comma, trim_start_comma.
Qed.

Lemma submitted_tags_are_clean_witness :
  Tags.parse " gift, , home office ,," = ["gift"; "home office"] /\
  Js.trim "home office" = "home office".
Proof.
  split; [reflexivity |].
  apply (submitted_tags_are_clean " gift, , home office ,," "home office").
  vm_compute. right. left. reflexivity.
Defined.

Lemma split_comma_free (t : string) :
  JsString.includes "," t = false -> JsString.split "," t = [t].
Proof.
  induction t as [|c t IH]; intros H; [reflexivity |].
  rewrite includes_comma_cons in H. apply orb_false_iff in H as [Hc Ht].
  rewrite split_char by (rewrite prefix_comma; exact Hc).
  rewrite (IH Ht). reflexivity.
Qed.

Lemma split_comma_app (t r : string) :
  JsString.includes "," t = false ->
  JsString.split "," (t +:+ "," +:+ r) = t :: JsString.split "," r.
Proof.
  induction t as [|c t IH]; intros H.
  - apply (split_sep "," "" r).
  - rewrite includes_comma_cons in H. apply orb_false_iff in H as [Hc Ht].
    rewrite str_app_cons.
    rewrite split_char by (rewrite prefix_comma; exact Hc).
    rewrite (IH Ht). reflexivity.
Qed.

Lemma trim_after_space (t : string) : Js.trim (" " +:+ t) = Js.trim t.
Proof. reflexivity. Qed.

Lemma split_join_tags (pre t : string) (ts : list string) :
  JsString.includes "," pre = false ->
  Forall clean_tag (t :: ts) ->
  map Js.trim (JsString.split "," (pre +:+ JsString.join ", " (t :: ts)))
  = Js.trim (pre +:+ t) :: ts.
Proof.
  revert pre t. induction ts as [|t2 ts IH]; intros pre t Hpre Hall.
  - inversion Hall as [| ? ? (_ & _ & Hc) _]; subst. simpl JsString.join.
    rewrite split_comma_free; [reflexivity |].
    rewrite includes_comma_app, Hpre, Hc. reflexivity.
  - inversion Hall as [| ? ? (_ & _ & Hc) Hrest]; subst.
    change (JsString.join ", " (t :: t2 :: ts))
      with (t +:+ ", " +:+ JsString.join ", " (t2 :: ts)).
    change (", " +:+ JsString.join ", " (t2 :: ts))
      with ("," +:+ (" " +:+ JsString.join ", " (t2 :: ts))).
    rewrite <- str_app_assoc.
    rewrite split_comma_app by (rewrite includes_comma_app, Hpre, Hc; reflexivity).
    rewrite List.map_cons. f_equal.
    rewrite (IH " " t2 eq_refl Hrest). f_equal.
    rewrite trim_after_space.
    inversion Hrest as [| ? ? (_ & Htrim & _) _]; subst. exact Htrim.
Qed.

Lemma tags_round_trip (ts : list string) :
  Forall clean_tag ts -> Tags.parse (Tags.show (Some ts)) = ts.
Proof.
  intros Hall. unfold Tags.parse, Tags.show.
  destruct ts as [|t ts]; [reflexivity |].
  change (JsString.join ", " (t :: ts)) with ("" +:+ JsString.join ", " (t :: ts)).
  rewrite (split_join_tags "" t ts eq_refl Hall).
  change ("" +:+ t) with t.
  assert (Htrim : Js.trim t = t).
  { inversion Hall as [| ? ? (_ & H & _) _]. exact H. }
  rewrite Htrim.
  clear Htrim. induction Hall as [| x l (Hne & _ & _) _ IH]; [reflexivity |].
  simpl. apply str_truthy_true in Hne. rewrite Hne. now f_equal.
Qed.

(** X19: opening the edit form on a wishlist and submitting it
    untouched hands [onSubmit] the title, description, visibility and
    tags the wishlist had, provided its tags are non-empty, without
    surrounding white space and without comma; with no tags, or an
    empty list, it submits the empty list. *)
Theorem edit_form_round_trip (title description : string) (isPublic : bool)
    (tags : list string) :
  (forall t : string,
      In t tags -> t <> "" /\ Js.trim t = t /\ JsString.includes "," t = false) ->
  EditWishlistModal.submitted
    (EditWishlistModal.fill
       (EditWishlistModal.mkWishlist (Some title) (Some description)
          (Some isPublic) (Some tags)))
  = EditWishlistModal.mkData title description isPublic tags /\
  EditWishlistModal.d_tags
    (EditWishlistModal.submitted
       (EditWishlistModal.fill
          (EditWishlistModal.mkWishlist (Some title) (Some description)
             (Some isPublic) None)))
  = [].
Proof.
  intros H. split; [| reflexivity].
  change (EditWishlistModal.mkData (Js.or_else (Some title) "")
            (Js.or_else (Some description) "") isPublic
            (Tags.parse (Tags.show (Some tags)))
          = EditWishlistModal.mkData title description isPublic tags).
  rewrite tags_round_trip by (apply List.Forall_forall; exact H).
  f_equal; unfold Js.or_else.
  - destruct title; reflexivity.
  - destruct description; reflexivity.
Qed.

Lemma edit_form_round_trip_witness :
  EditWishlistModal.submitted
    (EditWishlistModal.fill
       (EditWishlistModal.mkWishlist (Some "Birthday") (Some "") (Some true)
          (Some ["gift"; "home office"])))
  = EditWishlistModal.mkData "Birthday" "" true ["gift"; "home office"].
Proof.
  apply (edit_form_round_trip "Birthday" "" true ["gift"; "home office"]).
  intros t [<- | [<- | []]]; repeat split; discriminate.
Defined.

(** A tag with a comma or with surrounding white space does not come
    back as it was. *)
Lemma edit_form_changes_unclean_tags :
  Tags.parse (Tags.show (Some ["a,b"; " c "])) = ["a"; "b"; "c"].
Proof. reflexivity. Qed.

(** ** Uploads *)


Lemma avatar_size_bound_examples :
  snd (AvatarUpload.handleFileSelect (Some (File.mk "image/png" 5242880))
         (Resolved (AvatarUpload.mkData (Some "a.png"))) (AvatarUpload.mkState false ""))
  = [AvatarUpload.UploadAvatar (File.mk "image/png" 5242880);
     AvatarUpload.CallOnUpload (Some "a.png")] /\
  AvatarUpload.handleFileSelect (Some (File.mk "image/png" 5242881))
    (Resolved (AvatarUpload.mkData (Some "a.png"))) (AvatarUpload.mkState false "")
  = (AvatarUpload.mkState false "File too large. Maximum size is 5MB", []) /\
  AvatarUpload.handleFileSelect (Some (File.mk "application/pdf" 10))
    (Resolved (AvatarUpload.mkData (Some "a.png"))) (AvatarUpload.mkState false "")
  = (AvatarUpload.mkState false "Only image files are allowed", []).
Proof. repeat split. Qed.

Lemma rejection_message_nonempty (maxSize : Z) (r : ImageDrop.rejection) :
  ImageDrop.rejection_message maxSize r <> "".
Proof.
  unfold ImageDrop.rejection_message.
  destruct (ImageDrop.has_code "file-too-large" r); [discriminate |].
  destruct (ImageDrop.has_code "file-invalid-type" r); discriminate.
Qed.

(** X21: when the drop zone reports a rejected file, [onDrop] uploads
    nothing, even if other files were accepted, and shows a message,
    the size message taking precedence over the type message.  With
    nothing rejected and a file accepted, its first action is the
    upload of the first accepted file, to the avatar endpoint when the
    upload type is ['avatar'] and to the product-image endpoint
    otherwise, and it makes no other upload; a fulfilled upload is
    followed by [onUpload] with the URL of the response and sets
    [success], a failed one leaves the message of the [catch] branch.
    With nothing rejected and nothing accepted it does nothing. *)
Theorem drop_uploads_only_clean_batches (uploadType : string) (maxSize : Z)
    (acceptedFiles : list File.t) (rejectedFiles : list ImageDrop.rejection)
    (response : outcome ImageDrop.data) (st : ImageUpload.state) :
  let r := ImageDrop.onDrop uploadType maxSize acceptedFiles rejectedFiles response st in
  (rejectedFiles <> [] ->
   snd r = [] /\ ImageUpload.error (fst r) <> "" /\
   ImageUpload.success (fst r) = ImageUpload.success st) /\
  (forall rej : ImageDrop.rejection,
      head rejectedFiles = Some rej ->
      In "file-too-large" (ImageDrop.errors rej) ->
      ImageUpload.error (fst r)
      = "File too large. Maximum size is "
        +:+ JsString.of_number (ImageDrop.megabytes maxSize) +:+ "MB") /\
  (forall f : File.t,
      (In (ImageDrop.UploadAvatar f) (snd r) ->
       rejectedFiles = [] /\ head acceptedFiles = Some f /\ uploadType = "avatar") /\
      (In (ImageDrop.UploadProductImage f) (snd r) ->
       rejectedFiles = [] /\ head acceptedFiles = Some f /\ uploadType <> "avatar")) /\
  (forall file : File.t,
      rejectedFiles = [] -> head acceptedFiles = Some file ->
      (uploadType = "avatar" -> head (snd r) = Some (ImageDrop.UploadAvatar file)) /\
      (uploadType <> "avatar" ->
       head (snd r) = Some (ImageDrop.UploadProductImage file)) /\
      (forall d : ImageDrop.data,
          response = Resolved d ->
          tail (snd r) = [ImageDrop.CallOnUpload (ImageDrop.uploaded_url d)] /\
          fst r = ImageUpload.mkState false 100 "" true) /\
      (forall err : JsError.t,
          response = Rejected err ->
          tail (snd r) = [] /\
          ImageUpload.error (fst r) = ImageUpload.errorMessage err /\
          ImageUpload.success (fst r) = false)) /\
  (rejectedFiles = [] -> acceptedFiles = [] -> r = (st, [])).
Proof.
  cbn zeta. unfold ImageDrop.onDrop.
  destruct rejectedFiles as [|rej rs].
  - split; [intros H; contradiction |].
    split; [intros rej H; discriminate H |].
    destruct acceptedFiles as [|file fs].
    + split; [intros f; split; intros [] |].
      split; [intros file _ H; discriminate H | reflexivity].
    + destruct (String.eqb_spec uploadType "avatar") as [-> | Hne];
        destruct response as [d | e]; simpl.
      all: split;
        [ intros f; split; intros H;
          repeat (destruct H as [H | H]); try contradiction; try discriminate H;
          injection H as <-; repeat split; assumption
        | split; [| intros _ H; discriminate H] ].
      all: intros file' _ Hh; injection Hh as <-.
      all: split; [intros H; try reflexivity; contradiction |].
      all: split; [intros H; try reflexivity; contradiction |].
      all: split; intros x Hx; try discriminate Hx; injection Hx as <-;
        repeat split.
  - simpl. split; [intros _; repeat split; apply rejection_message_nonempty |].
    split.
    + intros rej' Hh Hin. injection Hh as <-.
      unfold ImageDrop.rejection_message, ImageDrop.has_code.
      assert (He : existsb (fun c => String.eqb c "file-too-large") (ImageDrop.errors rej) = true).
      { apply existsb_exists. exists "file-too-large". split; [exact Hin | reflexivity]. }
      now rewrite He.
    + split; [intros f; split; intros [] |].
      split; [intros file H; discriminate H | intros H; discriminate H].
Qed.

Lemma drop_uploads_only_clean_batches_witness :
  snd (ImageDrop.onDrop "product-image" 10485760 [File.mk "image/png" 2048]
         [ImageDrop.mkRejection ["file-invalid-type"; "file-too-large"]]
         (Resolved (ImageDrop.mkData (Some "x.png") None))
         (ImageUpload.mkState false 0 "" false))
  = [] /\
  ImageUpload.error
    (fst (ImageDrop.onDrop "product-image" 10485760 [File.mk "image/png" 2048]
            [ImageDrop.mkRejection ["file-invalid-type"; "file-too-large"]]
            (Resolved (ImageDrop.mkData (Some "x.png") None))
            (ImageUpload.mkState false 0 "" false)))
  = "File too large. Maximum size is 10MB" /\
  head (snd (ImageDrop.onDrop "product-image" 10485760 [File.mk "image/png" 2048] []
               (Resolved (ImageDrop.mkData (Some "x.png") None))
               (ImageUpload.mkState false 0 "" false)))
  = Some (ImageDrop.UploadProductImage (File.mk "image/png" 2048)).
Proof.
  pose proof (drop_uploads_only_clean_batches "product-image" 10485760
                [File.mk "image/png" 2048]
                [ImageDrop.mkRejection ["file-invalid-type"; "file-too-large"]]
                (Resolved (ImageDrop.mkData (Some "x.png") None))
                (ImageUpload.mkState false 0 "" false)) as (Hrej & Hbig & _).
  pose proof (drop_uploads_only_clean_batches "product-image" 10485760
                [File.mk "image/png" 2048] []
                (Resolved (ImageDrop.mkData (Some "x.png") None))
                (ImageUpload.mkState false 0 "" false)) as (_ & _ & _ & Hup & _).
  split; [| split].
  - apply Hrej. discriminate.
  - apply (Hbig (ImageDrop.mkRejection ["file-invalid-type"; "file-too-large"]));
      [reflexivity | right; left; reflexivity].
  - apply (Hup (File.mk "image/png" 2048) eq_refl eq_refl). discriminate.
Defined.

(** ** The dashboard list *)

Lemma filter_wishlist_In (wid : string) (l : list Wishlist.t) (w : Wishlist.t) :
  In w (List.filter (fun w => negb (String.eqb (Wishlist._id w) wid)) l)
  <-> In w l /\ Wishlist._id w <> wid.
Proof. rewrite List.filter_In, negb_true_iff, String.eqb_neq. reflexivity. Qed.

(** X22: [handleDeleteWishlist] replaces the list by a filtered copy
    of the list of the render it was created in.  When two deletions
    are started from the same render and both are fulfilled, the list
    ends as that copy without the second wishlist only: the wishlist
    deleted first is shown again.  When the second deletion is started
    from the list the first one left, neither remains. *)
Theorem overlapping_deletes_resurrect (a b : string) (wishlists : list Wishlist.t) :
  a <> b ->
  let after_a := Dashboard.handleDeleteWishlist wishlists a true (Resolved tt) wishlists in
  let overlapped := Dashboard.handleDeleteWishlist wishlists b true (Resolved tt) after_a in
  let sequential := Dashboard.handleDeleteWishlist after_a b true (Resolved tt) after_a in
  (forall w : Wishlist.t,
      In w wishlists -> Wishlist._id w = a -> In w overlapped /\ ~ In w after_a) /\
  (forall w : Wishlist.t,
      In w sequential <-> In w wishlists /\ Wishlist._id w <> a /\ Wishlist._id w <> b).
Proof.
  intros Hab. cbn zeta. unfold Dashboard.handleDeleteWishlist. simpl. split.
  - intros w Hin Hid. rewrite !filter_wishlist_In. split; [| tauto].
    split; [exact Hin | congruence].
  - intros w. rewrite !filter_wishlist_In. tauto.
Qed.

Lemma overlapping_deletes_resurrect_witness :
  Dashboard.handleDeleteWishlist
    [Wishlist.mk "w1" "Birthday"; Wishlist.mk "w2" "Home"] "w2" true (Resolved tt)
    (Dashboard.handleDeleteWishlist
       [Wishlist.mk "w1" "Birthday"; Wishlist.mk "w2" "Home"] "w1" true (Resolved tt)
       [Wishlist.mk "w1" "Birthday"; Wishlist.mk "w2" "Home"])
  = [Wishlist.mk "w1" "Birthday"] /\
  In (Wishlist.mk "w1" "Birthday")
    (Dashboard.handleDeleteWishlist
       [Wishlist.mk "w1" "Birthday"; Wishlist.mk "w2" "Home"] "w2" true (Resolved tt)
       (Dashboard.handleDeleteWishlist
          [Wishlist.mk "w1" "Birthday"; Wishlist.mk "w2" "Home"] "w1" true (Resolved tt)
          [Wishlist.mk "w1" "Birthday"; Wishlist.mk "w2" "Home"])).
Proof.
  split; [reflexivity |].
  assert (Hab : "w1" <> "w2") by discriminate.
  apply (proj1 (overlapping_deletes_resurrect "w1" "w2"
                  [Wishlist.mk "w1" "Birthday"; Wishlist.mk "w2" "Home"] Hab)
           (Wishlist.mk "w1" "Birthday")).
  - left. reflexivity.
  - reflexivity.
Defined.

(** X23: [handleCreateWishlist] prepends the created wishlist to the
    list of the render it was created in, so a wishlist joined while
    the create request was in flight is in the result only if it was
    already in that list or is the created one; joining after the
    create has settled keeps both.  A rejected create leaves the
    current list as it is. *)
Theorem join_during_create_is_lost (wishlists : list Wishlist.t)
    (created joined : Wishlist.t) :
  let during :=
    fst (Dashboard.handleCreateWishlist wishlists (Resolved created)
           (Dashboard.handleJoinWishlist joined wishlists)) in
  let afterwards :=
    Dashboard.handleJoinWishlist joined
      (fst (Dashboard.handleCreateWishlist wishlists (Resolved created) wishlists)) in
  during = created :: wishlists /\
  (In joined during <-> joined = created \/ In joined wishlists) /\
  afterwards = joined :: created :: wishlists /\
  (forall (e : JsError.t) (current : list Wishlist.t),
      fst (Dashboard.handleCreateWishlist wishlists (Rejected e) current) = current).
Proof.
  cbn zeta. simpl. repeat split; try tauto.
  - intros [H | H]; [left; congruence | now right].
  - intros [H | H]; [left; congruence | now right].
Qed.

(** ** The delete message and the image of a product *)

(** X24: when the socket is connected, the message a fulfilled delete
    sends carries the [wishlist] field of the product; a page showing
    that wishlist applies it as its own [onDelete] would, and a page
    showing another wishlist ignores it. *)
Theorem delete_message_round_trip (sock : SocketService.t) (product : Product.t)
    (id : string) (other : WishlistDetail.state) :
  SocketService.socket sock = true ->
  SocketService.isConnected sock = true ->
  exists d : ProductDeletedEvent.t,
    ProductCard.handleDelete sock product true (Resolved tt)
    = [Rest (ProductsDelete (Product._id product));
       CallOnDelete (Product._id product);
       Emit "product-deleted" (ProductDeletedPayload d)] /\
    (id = Product.wishlist product ->
     WishlistDetail.receive id (WishlistDetail.ProductDeleted d) other
     = WishlistDetail.handleDeleteProduct (Product._id product) other) /\
    (id <> Product.wishlist product ->
     WishlistDetail.receive id (WishlistDetail.ProductDeleted d) other = other).
Proof.
  intros Hs Hc.
  exists (ProductDeletedEvent.mk (Product.wishlist product) (Product._id product)).
  unfold ProductCard.handleDelete, SocketService.emitProductDeleted.
  rewrite (emit_connected _ _ _ Hs Hc). split; [reflexivity |].
  simpl. unfold WishlistDetail.handleProductDeleted. simpl. split.
  - intros ->. now rewrite String.eqb_refl.
  - intros Hne. apply not_eq_sym, String.eqb_neq in Hne. now rewrite Hne.
Qed.

Lemma delete_message_round_trip_witness :
  exists d : ProductDeletedEvent.t,
    ProductCard.handleDelete Sample.connected Sample.lamp true (Resolved tt)
    = [Rest (ProductsDelete "p1"); CallOnDelete "p1";
       Emit "product-deleted" (ProductDeletedPayload d)] /\
    (("w1" : string) = "w1" ->
     WishlistDetail.receive "w1" (WishlistDetail.ProductDeleted d) Sample.page
     = WishlistDetail.handleDeleteProduct "p1" Sample.page) /\
    (("w1" : string) <> "w1" ->
     WishlistDetail.receive "w1" (WishlistDetail.ProductDeleted d) Sample.page
     = Sample.page).
Proof.
  apply (delete_message_round_trip Sample.connected Sample.lamp "w1" Sample.page);
    reflexivity.
Defined.

(** X25: [getProductImageUrl] is [null] exactly when the product has no
    image URL or an empty one; an image URL that is not a Cloudinary
    one is returned as it is; a Cloudinary one is optimized with width
    400, height 300 and crop [fill] unless the options say otherwise. *)
Theorem product_image_fallback (imageUrl : option string) (o : Cloudinary.options) :
  (Cloudinary.getProductImageUrl imageUrl o = None <->
   imageUrl = None \/ imageUrl = Some "") /\
  (forall url : string,
      imageUrl = Some url -> url <> "" -> Cloudinary.isCloudinaryUrl url = false ->
      Cloudinary.getProductImageUrl imageUrl o = Some url) /\
  (forall url : string,
      imageUrl = Some url -> Cloudinary.isCloudinaryUrl url = true ->
      Cloudinary.getProductImageUrl imageUrl Cloudinary.no_options
      = Some (Cloudinary.getOptimizedImageUrl url
                (Cloudinary.mkOptions (Some 400%Z) (Some 300%Z) None None
                   (Some "fill") None))).
Proof.
  unfold Cloudinary.getProductImageUrl. split; [| split].
  - destruct imageUrl as [url |]; [| tauto].
    destruct url as [|c url]; simpl; [tauto |].
    destruct (Cloudinary.isCloudinaryUrl (String c url)); split;
      try discriminate; intros [H | H]; discriminate.
  - intros url -> Hne Hc. apply str_truthy_true in Hne. now rewrite Hne, Hc.
  - intros url -> Hc. rewrite Hc.
    destruct url as [|c url]; [discriminate Hc | reflexivity].
Qed.

(** ** Links of the product card *)

(** X26: on a non-empty string, the result of [ensureUrlProtocol]
    always begins with [http://] or [https://] and always ends with
    its argument, which it extends by nothing or by [https://]; the
    test is case sensitive, so an upper-case scheme is prefixed too. *)
Theorem ensureUrlProtocol_output (url : string) :
  url <> "" ->
  Helpers.has_protocol (Helpers.ensureUrlProtocol url) /\
  (Helpers.ensureUrlProtocol url = url \/
   Helpers.ensureUrlProtocol url = "https://" +:+ url) /\
  Helpers.ensureUrlProtocol ("HTTP://" +:+ url) = "https://HTTP://" +:+ url.
Proof.
  intros Hne. unfold Helpers.ensureUrlProtocol at 1 2 3.
  apply str_truthy_true in Hne. rewrite Hne. cbn [negb].
  destruct (Helpers.test_anchored Helpers.protocol_re url) eqn:E.
  - split; [now apply protocol_re_sound |]. split; [now left | reflexivity].
  - split; [apply has_protocol_https |]. split; [now right | reflexivity].
Qed.

Lemma ensureUrlProtocol_output_witness :
  Helpers.has_protocol (Helpers.ensureUrlProtocol "shop.example/item").
Proof.
  apply (ensureUrlProtocol_output "shop.example/item"). discriminate.
Defined.
